(** * The query-and-answer scripts of the Bedrock knowledge-base project

    A shallow embedding of [scripts/query_knowledge_base.py] and
    [scripts/query_kb_retrieve.py]: retrieval, prompt assembly, generation,
    reference formatting and the driver that chains them.

    Python values are the JSON-shaped values the scripts receive from the
    service clients.  A [str] is a sequence of characters with code points
    below 256, one [ascii] per character.  Dictionaries are association
    lists in insertion order (the order [str] prints them in); a key is
    looked up at its first entry.  The exceptions are those derived from
    [Exception], the ones an [except Exception] clause catches; the texts of
    the interpreter's own errors are CPython 3.11's. *)

From Stdlib Require Import String Ascii List ZArith Lia Bool PrimFloat DecimalString.
Import ListNotations.
Local Open Scope list_scope.
Local Open Scope string_scope.
Set Warnings "-inexact-float".

(** ** Strings *)

Definition LF : string := String (ascii_of_nat 10) EmptyString.
Definition DQ : string := String (ascii_of_nat 34) EmptyString.

(** [str(n)] for a natural number and for an integer. *)
Definition dec (n : nat) : string := NilEmpty.string_of_uint (Nat.to_uint n).
Definition dec_Z (z : Z) : string := NilZero.string_of_int (Z.to_int z).

(** [sep.join(parts)] *)
Definition join (sep : string) (parts : list string) : string :=
  String.concat sep parts.

(** [s[:n]] *)
Fixpoint str_take (n : nat) (s : string) : string :=
  match n, s with
  | S n', String c s' => String c (str_take n' s')
  | _, _ => EmptyString
  end.

(** [c * n] for a one-character string [c]. *)
Fixpoint rep (c : string) (n : nat) : string :=
  match n with
  | O => EmptyString
  | S n' => c ++ rep c n'
  end.

(** Lower case of one character: A-Z, and the accented capitals
    U+00C0-U+00DE but for the multiplication sign U+00D7. *)
Definition lower_char (c : ascii) : ascii :=
  let n := nat_of_ascii c in
  if ((65 <=? n)%nat && (n <=? 90)%nat)
     || ((192 <=? n)%nat && (n <=? 222)%nat && negb (n =? 215)%nat)
  then ascii_of_nat (n + 32) else c.

(** [s.lower()] *)
Fixpoint lower (s : string) : string :=
  match s with
  | EmptyString => EmptyString
  | String c s' => String (lower_char c) (lower s')
  end.

(** [needle in hay] *)
Fixpoint contains (needle hay : string) : bool :=
  if String.prefix needle hay then true
  else match hay with
       | EmptyString => false
       | String _ hay' => contains needle hay'
       end.

(** The characters [str.isspace] accepts. *)
Definition is_space (c : ascii) : bool :=
  let n := nat_of_ascii c in
  ((9 <=? n)%nat && (n <=? 13)%nat) || ((28 <=? n)%nat && (n <=? 32)%nat)
  || (n =? 133)%nat || (n =? 160)%nat.

Fixpoint lstrip (s : string) : string :=
  match s with
  | String c s' => if is_space c then lstrip s' else s
  | EmptyString => EmptyString
  end.

Fixpoint rstrip (s : string) : string :=
  match s with
  | EmptyString => EmptyString
  | String c s' =>
      match rstrip s' with
      | EmptyString => if is_space c then EmptyString else String c EmptyString
      | t => String c t
      end
  end.

(** [s.strip()] *)
Definition strip (s : string) : string := rstrip (lstrip s).

(** ** Values, exceptions and results *)

#[warnings="-register-all"] Inductive value : Type :=
| VNone
| VBool (b : bool)
| VInt (z : Z)
| VFloat (f : float)
| VStr (s : string)
| VList (l : list value)
| VDict (d : list (string * value)).

(** An exception: its class name, [str(e)], and its [response] attribute
    when it has one. *)
Record exn : Type := mkExn {
  exn_type : string;
  exn_msg : string;
  exn_response : option value
}.

Inductive outcome (A : Type) : Type :=
| Return (a : A)
| Raise (e : exn).
Arguments Return {A} a.
Arguments Raise {A} e.

Definition obind {A B} (m : outcome A) (k : A -> outcome B) : outcome B :=
  match m with
  | Return a => k a
  | Raise e => Raise e
  end.

Declare Scope outcome_scope.
Delimit Scope outcome_scope with outcome.
Notation "x <- m ;; k" := (obind m (fun x => k))
  (at level 61, m at next level, right associativity) : outcome_scope.

(** ** The interpreter's own renderings

    What [repr] prints for a string and for a float, what [format(v, ".2f")]
    gives, and the [json] module are the interpreter's, not the scripts':
    they are taken as given. *)

Class Builtins : Type := {
  repr_str : string -> string;
  repr_float : float -> string;
  format_2f : value -> outcome string;
  json_dumps : value -> string;
  json_dumps_indent : value -> string;
  json_loads : string -> outcome value
}.

Definition type_name (v : value) : string :=
  match v with
  | VNone => "NoneType"
  | VBool _ => "bool"
  | VInt _ => "int"
  | VFloat _ => "float"
  | VStr _ => "str"
  | VList _ => "list"
  | VDict _ => "dict"
  end.

Definition TypeError (msg : string) : exn := mkExn "TypeError" msg None.
Definition AttributeError (msg : string) : exn := mkExn "AttributeError" msg None.
Definition IndexError (msg : string) : exn := mkExn "IndexError" msg None.
Definition not_subscriptable (v : value) : exn :=
  TypeError ("'" ++ type_name v ++ "' object is not subscriptable").

Fixpoint lookup (k : string) (d : list (string * value)) : option value :=
  match d with
  | [] => None
  | (k', v) :: d' => if String.eqb k k' then Some v else lookup k d'
  end.

(** [bool(v)] *)
Definition py_truthy (v : value) : bool :=
  match v with
  | VNone => false
  | VBool b => b
  | VInt z => negb (Z.eqb z 0)
  | VFloat f => negb (PrimFloat.eqb f PrimFloat.zero)
  | VStr s => negb (String.eqb s "")
  | VList l => match l with [] => false | _ => true end
  | VDict d => match d with [] => false | _ => true end
  end.

Fixpoint chars (s : string) : list value :=
  match s with
  | EmptyString => []
  | String c s' => VStr (String c EmptyString) :: chars s'
  end.

(** The items a [for] loop draws from [v]. *)
Definition py_iter (v : value) : outcome (list value) :=
  match v with
  | VList l => Return l
  | VStr s => Return (chars s)
  | VDict d => Return (map (fun kv => VStr (fst kv)) d)
  | _ => Raise (TypeError ("'" ++ type_name v ++ "' object is not iterable"))
  end.

(** [len(v)] *)
Definition py_len (v : value) : outcome nat :=
  match v with
  | VStr s => Return (String.length s)
  | VList l => Return (List.length l)
  | VDict d => Return (List.length d)
  | _ => Raise (TypeError ("object of type '" ++ type_name v ++ "' has no len()"))
  end.

(** [v.get(k, default)] *)
Definition py_get (v : value) (k : string) (default : value) : outcome value :=
  match v with
  | VDict d => Return (match lookup k d with Some x => x | None => default end)
  | _ => Raise (AttributeError ("'" ++ type_name v ++ "' object has no attribute 'get'"))
  end.

(** [v[:n]] *)
Definition py_slice (n : nat) (v : value) : outcome value :=
  match v with
  | VStr s => Return (VStr (str_take n s))
  | VList l => Return (VList (firstn n l))
  | VDict _ => Raise (TypeError "unhashable type: 'slice'")
  | _ => Raise (not_subscriptable v)
  end.

(** [v[0]] *)
Definition py_first (v : value) : outcome value :=
  match v with
  | VList [] => Raise (IndexError "list index out of range")
  | VList (x :: _) => Return x
  | VStr EmptyString => Raise (IndexError "string index out of range")
  | VStr (String c _) => Return (VStr (String c EmptyString))
  | VDict _ => Raise (mkExn "KeyError" "0" None)
  | _ => Raise (not_subscriptable v)
  end.

(** [v + w] where [w] is a string. *)
Definition py_add_str (v : value) (w : string) : outcome value :=
  match v with
  | VStr s => Return (VStr (s ++ w))
  | VList _ =>
      Raise (TypeError ("can only concatenate list (not " ++ DQ ++ "str" ++ DQ ++ ") to list"))
  | _ =>
      Raise (TypeError ("unsupported operand type(s) for +: '" ++ type_name v ++ "' and 'str'"))
  end.

(** [v.strip()] *)
Definition py_strip (v : value) : outcome string :=
  match v with
  | VStr s => Return (strip s)
  | _ => Raise (AttributeError ("'" ++ type_name v ++ "' object has no attribute 'strip'"))
  end.

Section Rendering.
Context {B : Builtins}.

Definition KeyError (k : string) : exn := mkExn "KeyError" (repr_str k) None.

(** [v[k]] for a string key [k]. *)
Definition py_item (v : value) (k : string) : outcome value :=
  match v with
  | VDict d => match lookup k d with Some x => Return x | None => Raise (KeyError k) end
  | VList _ => Raise (TypeError "list indices must be integers or slices, not str")
  | VStr _ => Raise (TypeError "string indices must be integers, not 'str'")
  | _ => Raise (not_subscriptable v)
  end.

(** [repr(v)] *)
Fixpoint py_repr (v : value) : string :=
  match v with
  | VNone => "None"
  | VBool true => "True"
  | VBool false => "False"
  | VInt z => dec_Z z
  | VFloat f => repr_float f
  | VStr s => repr_str s
  | VList l => "[" ++ join ", " (map py_repr l) ++ "]"
  | VDict d =>
      "{" ++ join ", " (map (fun kv => match kv with
                                       | (k, x) => repr_str k ++ ": " ++ py_repr x
                                       end) d) ++ "}"
  end.

(** [str(v)], which is also what an f-string or [print] shows. *)
Definition py_str (v : value) : string :=
  match v with
  | VStr s => s
  | _ => py_repr v
  end.
End Rendering.

(** ** Effects: what a run prints and which services it calls

    A run is the list of its events in order, with its result.  [Stdout] is
    one call of [print], [Prompt] the prompt of one call of [input].  [Enter]
    marks a call of one of the scripts' own functions; it changes nothing
    else. *)

Inductive event : Type :=
| Stdout (text : string)
| Prompt (text : string)
| Retrieve (kb query : string) (max_results : Z)
| RetrieveAndGenerate (kb query : string) (max_results : Z)
| InvokeModel (model_id body : string)
| Enter (fn : string).

Definition io (A : Type) : Type := (list event * outcome A)%type.

Definition ret {A} (a : A) : io A := ([], Return a).
Definition lift {A} (o : outcome A) : io A := ([], o).
Definition emit (ev : event) : io unit := ([ev], Return tt).
Definition print (text : string) : io unit := emit (Stdout text).

Definition bind {A B} (m : io A) (k : A -> io B) : io B :=
  match m with
  | (t, Return a) => let (t', r) := k a in ((t ++ t')%list, r)
  | (t, Raise e) => (t, Raise e)
  end.

(** [try: m except Exception as e: handler e] *)
Definition try_except {A} (m : io A) (handler : exn -> io A) : io A :=
  match m with
  | (t, Raise e) => let (t', r) := handler e in ((t ++ t')%list, r)
  | (t, Return a) => (t, Return a)
  end.

(** A call of the scripts' function [fn], whose body runs as [m]. *)
Definition entering {A} (fn : string) (m : io A) : io A :=
  (Enter fn :: fst m, snd m).

Declare Scope io_scope.
Delimit Scope io_scope with io.
Notation "x <- m ;; k" := (bind m (fun x => k))
  (at level 61, m at next level, right associativity) : io_scope.
Notation "m ;; k" := (bind m (fun _ => k))
  (at level 61, right associativity) : io_scope.

(** The service clients.  Each call either returns or raises; the client
    for the model call is created, called and its body read in one step.
    [kb_diagnostics] is what the two guarded listing blocks at the head of
    [query_knowledge_base] print: each catches every exception it meets and
    binds nothing that is read afterwards. *)
Class Services : Type := {
  retrieve : string -> string -> Z -> outcome value;
  retrieve_and_generate : string -> string -> Z -> outcome value;
  kb_diagnostics : string -> list string;
  invoke_model : string -> string -> outcome string
}.

(** [[f(i, x) for i, x in enumerate(items, start)]], stopping at the first
    exception. *)
Fixpoint enumerate_map {A} (f : nat -> value -> outcome A) (start : nat)
    (items : list value) : outcome (list A) :=
  match items with
  | [] => Return []
  | x :: rest =>
      (a <- f start x ;;
       r <- enumerate_map f (S start) rest ;;
       Return (a :: r))%outcome
  end.

(** ** scripts/query_kb_retrieve.py *)

Module QueryKbRetrieve.
Section Script.
Context {B : Builtins} {W : Services}.

Definition query_knowledge_base (knowledge_base_id query : string)
    (max_results : Z) : io value :=
  try_except
    (emit (Retrieve knowledge_base_id query max_results) ;;
     response <- lift (retrieve knowledge_base_id query max_results) ;;
     lift (py_get response "retrievalResults" (VList [])))%io
    (fun e =>
       print ("Error querying knowledge base: " ++ exn_msg e) ;;
       match exn_response e with
       | Some r => print ("Error details: " ++ py_str r)
       | None => ret tt
       end ;;
       ret (VList []))%io.

(** The preview line 53 computes from [content]. *)
Definition preview (content : value) : outcome value :=
  (n <- py_len content ;;
   if (200 <? n)%nat
   then (head <- py_slice 200 content ;; py_add_str head "...")
   else Return content)%outcome.

(** One pass of the loop of [format_results]: the three lines appended. *)
Definition result_lines (i : nat) (result : value) : outcome (list string) :=
  (c <- py_get result "content" (VDict []) ;;
   content <- py_get c "text" (VStr "") ;;
   location <- py_get result "location" (VDict []) ;;
   s3 <- py_get location "s3Location" (VDict []) ;;
   source <- py_get s3 "uri" (VStr "Unknown source") ;;
   score <- py_get result "score" (VInt 0) ;;
   pv <- preview content ;;
   relevance <- format_2f score ;;
   Return [LF ++ "Result " ++ dec i ++ " (Relevance: " ++ relevance ++ "):";
           "Source: " ++ py_str source;
           "Content: " ++ py_str pv])%outcome.

Definition format_results (results : value) : outcome string :=
  if negb (py_truthy results) then Return "No results found."
  else
    (items <- py_iter results ;;
     groups <- enumerate_map result_lines 1 items ;;
     Return (join LF ("=== Search Results ===" :: List.concat groups)))%outcome.
End Script.
End QueryKbRetrieve.

(** ** scripts/query_knowledge_base.py *)

Module QueryKnowledgeBase.

Definition NO_RESPONSE : string := "No response generated".

Definition troubleshooting_tips : list string :=
  [LF ++ "=== Troubleshooting Tips ===";
   "1. Verify the Knowledge Base ID is correct";
   "2. Check if the knowledge base is in ACTIVE state";
   "3. Verify the IAM role has necessary permissions";
   "4. Check if the knowledge base has been synced with data";
   "5. Check CloudWatch logs for detailed error information";
   "6. Verify the model ARN is correct and accessible in your region"].

Definition print_all (lines : list string) : io unit :=
  (map Stdout lines, Return tt).

(** The prompt template of [generate_response]. *)
Definition full_prompt (context prompt : string) : string :=
  "Use the following pieces of context to answer the question at the end. " ++ LF
  ++ "If you don't know the answer, just say that you don't know, don't try to make up an answer."
  ++ LF ++ LF ++ context ++ LF ++ LF
  ++ "Question: " ++ prompt ++ LF ++ "Helpful Answer:".

Definition is_claude (model_id : string) : bool := contains "claude" (lower model_id).
Definition is_titan (model_id : string) : bool := contains "titan" (lower model_id).

(** The dictionary [generate_response] serialises as the request body. *)
Definition request_body (model_id prompt_text : string) : value :=
  if is_claude model_id then
    VDict [("prompt", VStr (LF ++ LF ++ "Human: " ++ prompt_text ++ LF ++ LF ++ "Assistant:"));
           ("max_tokens_to_sample", VInt 1000);
           ("temperature", VFloat 0.5);
           ("top_p", VFloat 0.9)]
  else
    VDict [("prompt", VStr prompt_text);
           ("max_tokens", VInt 1000);
           ("temperature", VFloat 0.5);
           ("top_p", VFloat 0.9)].

(** The command line: [--knowledge-base-id], [--model-id], [--max-results]. *)
Record arguments : Type := {
  knowledge_base_id : string;
  model_id : string;
  max_results : Z
}.

Section Script.
Context {B : Builtins} {W : Services}.

Definition query_knowledge_base (kb_id query : string)
    (max : Z) : io value :=
  (print (LF ++ "=== Debug - Querying Knowledge Base ===") ;;
   print ("Knowledge Base ID: " ++ kb_id) ;;
   print ("Query: " ++ query) ;;
   print ("Max Results: " ++ dec_Z max) ;;
   try_except
     (print_all (kb_diagnostics kb_id) ;;
      print (LF ++ "--- Querying knowledge base using retrieve_and_generate ---") ;;
      emit (RetrieveAndGenerate kb_id query max) ;;
      response <- lift (retrieve_and_generate kb_id query max) ;;
      print (LF ++ "=== Query Response ===") ;;
      print (json_dumps_indent response) ;;
      ret response)
     (fun e =>
        print (LF ++ "=== Error Details ===") ;;
        print ("Error Type: " ++ exn_type e) ;;
        print ("Error Message: " ++ exn_msg e) ;;
        match exn_response e with
        | Some r =>
            print (LF ++ "=== AWS Error Response ===") ;;
            print (json_dumps_indent r)
        | None => ret tt
        end ;;
        print_all troubleshooting_tips ;;
        ret (VDict [("retrievalResults", VList [])])))%io.

(** [result['content']['text']] *)
Definition passage_text (result : value) : outcome value :=
  (c <- py_item result "content" ;; py_item c "text")%outcome.

(** [f"Source {i+1}:\n{result['content']['text']}"] *)
Definition source_block (i : nat) (result : value) : outcome string :=
  (text <- passage_text result ;;
   Return ("Source " ++ dec (i + 1) ++ ":" ++ LF ++ py_str text))%outcome.

(** The [context] block, lines 147-150. *)
Definition build_context (knowledge_base_results : value) : outcome string :=
  (items <- py_iter knowledge_base_results ;;
   blocks <- enumerate_map source_block 0 items ;;
   Return (join (LF ++ LF) blocks))%outcome.

(** Lines 193-199: the generated text in the parsed response. *)
Definition extract_text (model : string) (response_body : value) : outcome value :=
  if is_claude model then
    py_get response_body "completion" (VStr NO_RESPONSE)
  else if is_titan model then
    (results <- py_get response_body "results" (VList [VDict []]) ;;
     first <- py_first results ;;
     py_get first "outputText" (VStr NO_RESPONSE))%outcome
  else Return (VStr (py_str response_body)).

Definition generate_response (model prompt : string)
    (knowledge_base_results : value) : io value :=
  (context <- lift (build_context knowledge_base_results) ;;
   try_except
     (let body := json_dumps (request_body model (full_prompt context prompt)) in
      emit (InvokeModel model body) ;;
      raw <- lift (invoke_model model body) ;;
      response_body <- lift (json_loads raw) ;;
      lift (extract_text model response_body))
     (fun e =>
        print ("Error generating response: " ++ exn_msg e) ;;
        lift (Raise e)))%io.

(** What one pass of the loop of [format_references] reads from [result],
    in the order it reads it: the source, the page and [content[:200]]. *)
Definition reference_fields (result : value) : outcome (value * value * value) :=
  (metadata <- py_get result "metadata" (VDict []) ;;
   c <- py_get result "content" (VDict []) ;;
   content <- py_get c "text" (VStr "No content") ;;
   source <- py_get metadata "source" (VStr "Unknown") ;;
   page <- py_get metadata "page_number" (VStr "N/A") ;;
   head <- py_slice 200 content ;;
   Return (source, page, head))%outcome.

(** The [reference] string built from them. *)
Definition reference_text (i : nat) (fields : value * value * value) : string :=
  let '(source, page, head) := fields in
  LF ++ "--- Reference " ++ dec i ++ " ---" ++ LF
  ++ "Source: " ++ py_str source ++ LF
  ++ "Page: " ++ py_str page ++ LF
  ++ "Content: " ++ py_str head ++ "...".

(** One pass of the loop of [format_references]. *)
Definition reference_entry (i : nat) (result : value) : outcome string :=
  (fields <- reference_fields result ;; Return (reference_text i fields))%outcome.

Definition format_references (retrieval_results : value) : outcome string :=
  if negb (py_truthy retrieval_results) then Return "No references found."
  else
    (items <- py_iter retrieval_results ;;
     references <- enumerate_map reference_entry 1 items ;;
     Return (join LF references))%outcome.

(** What [main] prints once it has an answer (RESPONSE, then REFERENCES). *)
Definition show_answer (response_text retrieval_results : value) : io unit :=
  (print (LF ++ rep "=" 80) ;;
   print "RESPONSE:" ;;
   print (rep "-" 80) ;;
   text <- lift (py_strip response_text) ;;
   print text ;;
   print (LF ++ rep "=" 80) ;;
   print (LF ++ "REFERENCES:") ;;
   print (rep "-" 80) ;;
   references <- entering "format_references"
                   (lift (format_references retrieval_results)) ;;
   print references ;;
   print (rep "=" 80 ++ LF))%io.

(** [main] with [--query]: lines 293-325. *)
Definition main_single (args : arguments) (query : string) : io unit :=
  try_except
    (print ("Querying knowledge base: " ++ query) ;;
     response <- entering "query_knowledge_base"
                   (query_knowledge_base (knowledge_base_id args) query (max_results args)) ;;
     retrieval_results <- lift (py_get response "retrievalResults" (VList [])) ;;
     if py_truthy retrieval_results then
       response_text <- entering "generate_response"
                          (generate_response (model_id args) query retrieval_results) ;;
       show_answer response_text retrieval_results
     else print "No results found for your query.")%io
    (fun e => print ("Error: " ++ exn_msg e)).

Inductive loop_control : Type := Continue | Break.

(** One pass of the interactive loop, lines 245-291, for the stripped
    input [query]. *)
Definition interactive_iteration (args : arguments) (query : string) : io loop_control :=
  try_except
    (if String.eqb (lower query) "exit" || String.eqb (lower query) "quit" then ret Break
     else if String.eqb query "" then ret Continue
     else
       print (LF ++ "Searching knowledge base...") ;;
       response <- entering "query_knowledge_base"
                     (query_knowledge_base (knowledge_base_id args) query (max_results args)) ;;
       retrieval_results <- lift (py_get response "retrievalResults" (VList [])) ;;
       (if py_truthy retrieval_results then
          print (LF ++ "Generating response...") ;;
          response_text <- entering "generate_response"
                             (generate_response (model_id args) query retrieval_results) ;;
          show_answer response_text retrieval_results
        else print "No results found for your query.") ;;
       ret Continue)%io
    (fun e => (print ("Error: " ++ exn_msg e) ;; ret Continue)%io).

(** The interactive loop over the lines typed so far. *)
Fixpoint interactive_loop (args : arguments) (lines : list string) : list event :=
  match lines with
  | [] => []
  | line :: rest =>
      let (t, r) := interactive_iteration args (strip line) in
      match r with
      | Return Break => Prompt (LF ++ "Enter your question: ") :: t
      | _ => (Prompt (LF ++ "Enter your question: ") :: t ++ interactive_loop args rest)%list
      end
  end.

Definition interactive_mode (args : arguments) (lines : list string) : list event :=
  (Stdout "Interactive Mode (type 'exit' to quit)" :: Stdout (rep "-" 40)
   :: interactive_loop args lines)%list.

(** [main]: interactive when [--query] is absent or empty; [lines] are the
    lines then typed. *)
Definition main (args : arguments) (query : option string) (lines : list string)
    : list event :=
  match query with
  | None => interactive_mode args lines
  | Some q =>
      if String.eqb q "" then interactive_mode args lines
      else fst (main_single args q)
  end.
End Script.
End QueryKnowledgeBase.

(** ** Observations and stand-ins *)

Definition returns {A} (o : outcome A) : bool :=
  match o with
  | Return _ => true
  | Raise _ => false
  end.

(** The events by which generation or reference formatting shows in a run. *)
Definition is_generation_step (ev : event) : bool :=
  match ev with
  | InvokeModel _ _ => true
  | Enter fn => String.eqb fn "generate_response" || String.eqb fn "format_references"
  | _ => false
  end.

(** The terminal states of the pipeline, read off the last line it prints. *)
Inductive terminal : Type :=
| DONE
| NO_RESULTS
| FAILED (msg : string).

Fixpoint str_drop (n : nat) (s : string) : string :=
  match n, s with
  | S n', String _ s' => str_drop n' s'
  | _, _ => s
  end.

Definition classify (line : string) : option terminal :=
  if String.eqb line "No results found for your query." then Some NO_RESULTS
  else if String.prefix "Error: " line then Some (FAILED (str_drop 7 line))
  else if String.eqb line (rep "=" 80 ++ LF) then Some DONE
  else None.

Definition terminal_of (t : list event) : option terminal :=
  match last t (Enter "") with
  | Stdout line => classify line
  | _ => None
  end.

(** A small interpreter for worked examples: [repr] of a string is right
    for text without quotes, backslashes or control characters, numbers
    print in a fixed way, and [json.loads] is the table [parse]. *)
Definition example_builtins (parse : string -> outcome value) : Builtins := {|
  repr_str := fun s => "'" ++ s ++ "'";
  repr_float := fun _ => "0.5";
  format_2f := fun v =>
    match v with
    | VInt z => Return (dec_Z z ++ ".00")
    | VFloat _ => Return "0.50"
    | _ => Raise (TypeError "unsupported format string")
    end;
  json_dumps := fun v =>
    match v with
    | VDict d => "{" ++ join ", " (map fst d) ++ "}"
    | _ => "null"
    end;
  json_dumps_indent := fun v =>
    match v with
    | VDict d => "{" ++ join ", " (map fst d) ++ "}"
    | _ => "null"
    end;
  json_loads := parse
|}.

(** A world whose every call of a service has the one given result. *)
Definition example_services (r rg : outcome value) (inv : outcome string) : Services := {|
  retrieve := fun _ _ _ => r;
  retrieve_and_generate := fun _ _ _ => rg;
  kb_diagnostics := fun _ => [];
  invoke_model := fun _ _ => inv
|}.

Definition passage (text : string) : value :=
  VDict [("content", VDict [("text", VStr text)])].

Definition service_down : exn := mkExn "ClientError" "service unavailable" None.

Definition plain_builtins : Builtins := example_builtins (fun _ => Return VNone).

Definition found (passages : list value) : outcome value :=
  Return (VDict [("retrievalResults", VList passages)]).

(** Every service is down. *)
Definition world_down : Services :=
  example_services (Raise service_down) (Raise service_down) (Raise service_down).
(** Retrieval finds nothing. *)
Definition world_empty : Services :=
  example_services (found []) (found []) (Return "").
(** Retrieval finds one passage and the model call fails. *)
Definition world_model_down : Services :=
  example_services (found [passage "abc"]) (found [passage "abc"]) (Raise service_down).
(** Retrieval finds one passage and the model answers with the body [raw]. *)
Definition world_answering (raw : string) : Services :=
  example_services (found [passage "abc"]) (found [passage "abc"]) (Return raw).

Definition example_args : QueryKnowledgeBase.arguments := {|
  QueryKnowledgeBase.knowledge_base_id := "HBPKZNSUMS";
  QueryKnowledgeBase.model_id := "anthropic.claude-v2";
  QueryKnowledgeBase.max_results := 3
|}.

(** The text of the JSON body with an empty "results" list. *)
Definition empty_results_body : string := "{" ++ DQ ++ "results" ++ DQ ++ ": []}".

(** What [QueryKnowledgeBase.query_knowledge_base] has printed and called
    when the call of the service returns or raises, and what its handler
    prints for the exception [e]. *)
Definition retrieval_preamble {W : Services} (kb query : string) (max : Z) : list event :=
  ([Stdout (LF ++ "=== Debug - Querying Knowledge Base ===");
    Stdout ("Knowledge Base ID: " ++ kb);
    Stdout ("Query: " ++ query);
    Stdout ("Max Results: " ++ dec_Z max)]
   ++ map Stdout (kb_diagnostics kb)
   ++ [Stdout (LF ++ "--- Querying knowledge base using retrieve_and_generate ---");
       RetrieveAndGenerate kb query max])%list.

Definition error_report {B : Builtins} (e : exn) : list event :=
  ([Stdout (LF ++ "=== Error Details ===");
    Stdout ("Error Type: " ++ exn_type e);
    Stdout ("Error Message: " ++ exn_msg e)]
   ++ match exn_response e with
      | Some r => [Stdout (LF ++ "=== AWS Error Response ==="); Stdout (json_dumps_indent r)]
      | None => []
      end
   ++ map Stdout QueryKnowledgeBase.troubleshooting_tips)%list.

Definition no_generation (t : list event) : bool := negb (existsb is_generation_step t).

(** The keys of a dictionary, in order. *)
Definition field_names (v : value) : list string :=
  match v with
  | VDict d => map fst d
  | _ => []
  end.


(** ** Counting calls, and the lines the interactive loops act on *)

Definition is_model_call (ev : event) : bool :=
  match ev with
  | InvokeModel _ _ => true
  | _ => false
  end.

Definition is_retrieval_call (ev : event) : bool :=
  match ev with
  | Retrieve _ _ _ | RetrieveAndGenerate _ _ _ => true
  | _ => false
  end.

Definition model_calls (t : list event) : nat := List.length (filter is_model_call t).
Definition retrieval_calls (t : list event) : nat := List.length (filter is_retrieval_call t).

(** [query.lower() in ['exit', 'quit']] *)
Definition is_exit (query : string) : bool :=
  String.eqb (lower query) "exit" || String.eqb (lower query) "quit".

(** A line of white space only. *)
Fixpoint all_space (s : string) : bool :=
  match s with
  | EmptyString => true
  | String c s' => is_space c && all_space s'
  end.

(** ** scripts/query_kb_retrieve.py: the driver *)

Module QueryKbRetrieveMain.
Section Script.
Context {B : Builtins} {W : Services}.

(** [main] with [--query], lines 100-103: no handler around the two calls. *)
Definition main_single (kb_id query : string) (max : Z) : io unit :=
  (results <- entering "query_knowledge_base"
                (QueryKbRetrieve.query_knowledge_base kb_id query max) ;;
   text <- entering "format_results" (lift (QueryKbRetrieve.format_results results)) ;;
   print text)%io.

(** One pass of the loop of [interactive_mode], lines 70-88, for the
    stripped input [query]; [max_results] is left to its default, 3. *)
Definition interactive_iteration (kb_id query : string)
    : io QueryKnowledgeBase.loop_control :=
  try_except
    (if is_exit query then (print "Exiting..." ;; ret QueryKnowledgeBase.Break)
     else if String.eqb query "" then ret QueryKnowledgeBase.Continue
     else
       print (LF ++ "Searching...") ;;
       results <- entering "query_knowledge_base"
                    (QueryKbRetrieve.query_knowledge_base kb_id query 3) ;;
       text <- entering "format_results" (lift (QueryKbRetrieve.format_results results)) ;;
       print (LF ++ text) ;;
       ret QueryKnowledgeBase.Continue)%io
    (fun e => (print (LF ++ "An error occurred: " ++ exn_msg e) ;;
               ret QueryKnowledgeBase.Continue)%io).

(** The loop over the lines typed so far. *)
Fixpoint interactive_loop (kb_id : string) (lines : list string) : list event :=
  match lines with
  | [] => []
  | line :: rest =>
      let (t, r) := interactive_iteration kb_id (strip line) in
      match r with
      | Return QueryKnowledgeBase.Break => Prompt (LF ++ "Enter your query: ") :: t
      | _ => (Prompt (LF ++ "Enter your query: ") :: t ++ interactive_loop kb_id rest)%list
      end
  end.

Definition interactive_mode (kb_id : string) (lines : list string) : list event :=
  (Stdout "=== Bedrock Knowledge Base Query Tool ==="
   :: Stdout ("Knowledge Base ID: " ++ kb_id)
   :: Stdout ("Type 'exit' to quit." ++ LF)
   :: interactive_loop kb_id lines)%list.

(** [main]: one query when [--query] is given and not empty, the
    interactive mode over the lines typed otherwise. *)
Definition main (query : option string) (kb_id : string) (max : Z) (lines : list string)
    : io unit :=
  match query with
  | None => (interactive_mode kb_id lines, Return tt)
  | Some q =>
      if String.eqb q "" then (interactive_mode kb_id lines, Return tt)
      else main_single kb_id q max
  end.
End Script.
End QueryKbRetrieveMain.

(** Every call of the retrieve service in a run is for [kb] and asks for
    [n] results. *)
Definition retrieves_only (kb : string) (n : Z) (t : list event) : Prop :=
  Forall (fun ev => match ev with
                    | Retrieve k _ m => k = kb /\ m = n
                    | _ => True
                    end) t.

(** ** Runs of the other scripts

    The same shape of run for the scripts with services of their own: a
    line printed, or a call [c] of a service. *)

Inductive effect (C : Type) : Type :=
| Printed (text : string)
| Called (call : C).
Arguments Printed {C} text.
Arguments Called {C} call.

Definition act (C A : Type) : Type := (list (effect C) * outcome A)%type.

Section Act.
Context {C : Type}.

Definition act_ret {A} (a : A) : act C A := ([], Return a).
Definition act_lift {A} (o : outcome A) : act C A := ([], o).
Definition act_print (text : string) : act C unit := ([Printed text], Return tt).

(** The call [c], whose result is [r]. *)
Definition act_call {A} (c : C) (r : outcome A) : act C A := ([Called c], r).

Definition act_bind {A D} (m : act C A) (k : A -> act C D) : act C D :=
  match m with
  | (t, Return a) => let (t', r) := k a in ((t ++ t')%list, r)
  | (t, Raise e) => (t, Raise e)
  end.

(** [try: m except Exception as e: handler e] *)
Definition act_try {A} (m : act C A) (handler : exn -> act C A) : act C A :=
  match m with
  | (t, Raise e) => let (t', r) := handler e in ((t ++ t')%list, r)
  | (t, Return a) => (t, Return a)
  end.
End Act.

Declare Scope act_scope.
Delimit Scope act_scope with act.
Notation "x <- m ;; k" := (act_bind m (fun x => k))
  (at level 61, m at next level, right associativity) : act_scope.
Notation "m ;; k" := (act_bind m (fun _ => k))
  (at level 61, right associativity) : act_scope.

(** ['k' in v] for a string [k]. *)
Definition py_in (k : string) (v : value) : outcome bool :=
  match v with
  | VDict d => Return (match lookup k d with Some _ => true | None => false end)
  | VList l =>
      Return (existsb (fun x => match x with VStr s => String.eqb s k | _ => false end) l)
  | VStr s => Return (contains k s)
  | _ => Raise (TypeError ("argument of type '" ++ type_name v ++ "' is not iterable"))
  end.

(** [v[i]] for an index [i] that is not negative. *)
Definition py_index (v : value) (i : nat) : outcome value :=
  match v with
  | VList l =>
      match nth_error l i with
      | Some x => Return x
      | None => Raise (IndexError "list index out of range")
      end
  | VStr s =>
      match String.get i s with
      | Some c => Return (VStr (String c EmptyString))
      | None => Raise (IndexError "string index out of range")
      end
  | VDict _ => Raise (mkExn "KeyError" (dec i) None)
  | _ => Raise (not_subscriptable v)
  end.

(** Whether [v] can be the key of a dictionary. *)
Definition hashable (v : value) : outcome unit :=
  match v with
  | VList _ | VDict _ => Raise (TypeError ("unhashable type: '" ++ type_name v ++ "'"))
  | _ => Return tt
  end.

(** What the handlers of the scripts print for an exception: the given
    heading with [str(e)], then "Error details" when [e] has a response. *)
Definition report {B : Builtins} {C : Type} (heading : string) (e : exn) : act C unit :=
  (act_print (heading ++ exn_msg e) ;;
   match exn_response e with
   | Some r => act_print ("Error details: " ++ py_str r)
   | None => act_ret tt
   end)%act.

(** ** scripts/query_rds_data.py *)

Module QueryRdsData.

Inductive call : Type :=
| ExecuteStatement (secret_arn resource_arn sql database region : string).

(** The client of the RDS Data API, created and called in one step. *)
Class Service : Type := {
  execute_statement : string -> string -> string -> string -> string -> outcome value
}.

(** What [query_rds_data] returns: the dictionary of 'columns' and 'rows',
    or the response itself.  A row is kept as the assignments
    [row[col] = v] the loop makes, in order; the dictionary is what they
    leave, the last assignment to a key standing. *)
Inductive result : Type :=
| Table (columns : list value) (rows : list (list (value * value)))
| Raw (response : value).

Section Script.
Context {B : Builtins} {S : Service}.

(** The chain of tests on one field of a record, lines 147-158. *)
Definition field_value (field : value) : outcome value :=
  (is_string <- py_in "stringValue" field ;;
   if is_string then py_item field "stringValue" else
   is_long <- py_in "longValue" field ;;
   if is_long then py_item field "longValue" else
   is_boolean <- py_in "booleanValue" field ;;
   if is_boolean then py_item field "booleanValue" else
   is_double <- py_in "doubleValue" field ;;
   if is_double then py_item field "doubleValue" else
   is_null <- py_in "isNull" field ;;
   if is_null then Return VNone else Return (VStr (py_str field)))%outcome.

(** One pass of the inner loop: [row[col]] is set from [record[i]]. *)
Definition cell (record : value) (i : nat) (col : value) : outcome (value * value) :=
  (field <- py_index record i ;;
   v <- field_value field ;;
   _ <- hashable col ;;
   Return (col, v))%outcome.

(** One pass of the outer loop: the row of [record]. *)
Definition row_of (columns : list value) (record : value) : outcome (list (value * value)) :=
  enumerate_map (cell record) 0 columns.

(** Lines 139-165: the table read from a response with 'records'. *)
Definition read_response (response : value) : outcome result :=
  (has_records <- py_in "records" response ;;
   if has_records then
     metadata <- py_item response "columnMetadata" ;;
     cols <- py_iter metadata ;;
     columns <- enumerate_map (fun _ col => py_item col "name") 0 cols ;;
     records <- py_item response "records" ;;
     items <- py_iter records ;;
     rows <- enumerate_map (fun _ record => row_of columns record) 0 items ;;
     Return (Table columns rows)
   else Return (Raw response))%outcome.

Definition query_rds_data (sql_statement database secret_arn resource_arn region : string)
    : act call result :=
  act_try
    (response <- act_call (ExecuteStatement secret_arn resource_arn sql_statement database region)
                   (execute_statement secret_arn resource_arn sql_statement database region) ;;
     act_lift (read_response response))%act
    (fun e => (report "Error executing query: " e ;; act_lift (Raise e))%act).
End Script.

(** [row[col]] in the dictionary a row leaves, for a string [col]. *)
Fixpoint row_get (col : string) (row : list (value * value)) : option value :=
  match row with
  | [] => None
  | (k, v) :: rest =>
      match row_get col rest with
      | Some later => Some later
      | None => match k with
                | VStr s => if String.eqb s col then Some v else None
                | _ => None
                end
      end
  end.
End QueryRdsData.

(** What makes a record readable against [n] columns: a list of at least
    [n] fields, each of which decodes. *)
Definition readable_record {B : Builtins} (n : nat) (record : value) : Prop :=
  match record with
  | VList fields =>
      n <= List.length fields
      /\ forall i f, i < List.length fields -> nth_error fields i = Some f ->
                     returns (QueryRdsData.field_value f) = true
  | _ => False
  end.

(** [v[k] = x] for a string key [k]: the container after the assignment. *)
Fixpoint dict_set (k : string) (x : value) (d : list (string * value))
    : list (string * value) :=
  match d with
  | [] => [(k, x)]
  | (k', v) :: d' => if String.eqb k k' then (k, x) :: d' else (k', v) :: dict_set k x d'
  end.

Definition py_setitem (v : value) (k : string) (x : value) : outcome value :=
  match v with
  | VDict d => Return (VDict (dict_set k x d))
  | VList _ => Raise (TypeError "list indices must be integers or slices, not str")
  | _ => Raise (TypeError ("'" ++ type_name v ++ "' object does not support item assignment"))
  end.

(** [v.update({...})] with the entries of the argument in order. *)
Definition py_update (v : value) (entries : list (string * value)) : outcome value :=
  match v with
  | VDict d => Return (VDict (fold_left (fun acc kv => dict_set (fst kv) (snd kv) acc) entries d))
  | _ => Raise (AttributeError ("'" ++ type_name v ++ "' object has no attribute 'update'"))
  end.

(** What a dictionary held under [k] in [v] looks like from [v] once it
    has been changed in place into [x]. *)
Definition stored (v : value) (k : string) (x : value) : value :=
  match v with
  | VDict d => VDict (dict_set k x d)
  | _ => v
  end.

(** ** scripts/update_kb_model.py *)

Module UpdateKbModel.

Definition KNOWLEDGE_BASE_ID : string := "HBPKZNSUMS".
Definition NEW_MODEL_ARN : string :=
  "arn:aws:bedrock:us-east-1::foundation-model/anthropic.claude-3-5-sonnet-20250219-v1:0".

(** The 'promptTemplate' literal of lines 46-55. *)
Definition PROMPT_TEMPLATE : string :=
  LF
  ++ "                Human: You are an AI assistant that answers questions based on the provided context."
  ++ LF ++ "                " ++ LF ++ "                <context>" ++ LF
  ++ "                {context}" ++ LF ++ "                </context>" ++ LF
  ++ "                " ++ LF ++ "                Question: {question}" ++ LF
  ++ "                " ++ LF ++ "                Assistant:" ++ LF ++ "                ".

Inductive call : Type :=
| GetKnowledgeBase (knowledge_base_id : string)
| UpdateKnowledgeBase (params : value).

(** The bedrock-agent client. *)
Class Service : Type := {
  get_knowledge_base : string -> outcome value;
  update_knowledge_base : value -> outcome value
}.

Section Script.
Context {B : Builtins} {S : Service}.

Definition get_knowledge_base_config (knowledge_base_id : string) : act call value :=
  act_try
    (response <- act_call (GetKnowledgeBase knowledge_base_id)
                   (get_knowledge_base knowledge_base_id) ;;
     act_lift (py_get response "knowledgeBase" (VDict [])))%act
    (fun e => (report "Error getting knowledge base: " e ;; act_lift (Raise e))%act).

(** Lines 35-56: [kb_config] after the generation configuration has been
    added or updated in place. *)
Definition with_generation_model (kb_config : value) (model_arn : string) : outcome value :=
  (has_configuration <- py_in "knowledgeBaseConfiguration" kb_config ;;
   if has_configuration then
     configuration <- py_item kb_config "knowledgeBaseConfiguration" ;;
     _ <- py_in "vectorKnowledgeBaseConfiguration" configuration ;;
     has_generation <- py_in "generationConfiguration" configuration ;;
     configuration1 <- (if has_generation then Return configuration
                        else py_setitem configuration "generationConfiguration" (VDict [])) ;;
     generation <- py_item configuration1 "generationConfiguration" ;;
     generation1 <- py_update generation
                      [("modelArn", VStr model_arn); ("promptTemplate", VStr PROMPT_TEMPLATE)] ;;
     Return (stored kb_config "knowledgeBaseConfiguration"
               (stored configuration1 "generationConfiguration" generation1))
   else Return kb_config)%outcome.

(** The keyword arguments of [update_knowledge_base], lines 59-65. *)
Definition update_params (knowledge_base_id : string) (kb_config : value) : outcome value :=
  (name <- py_item kb_config "name" ;;
   role <- py_item kb_config "roleArn" ;;
   configuration <- py_item kb_config "knowledgeBaseConfiguration" ;;
   storage <- py_item kb_config "storageConfiguration" ;;
   Return (VDict [("knowledgeBaseId", VStr knowledge_base_id);
                  ("name", name);
                  ("roleArn", role);
                  ("knowledgeBaseConfiguration", configuration);
                  ("storageConfiguration", storage)]))%outcome.

Definition update_knowledge_base_model (knowledge_base_id model_arn : string)
    : act call value :=
  act_try
    (kb_config <- get_knowledge_base_config knowledge_base_id ;;
     updated <- act_lift (with_generation_model kb_config model_arn) ;;
     params <- act_lift (update_params knowledge_base_id updated) ;;
     act_call (UpdateKnowledgeBase params) (update_knowledge_base params))%act
    (fun e => (report "Error updating knowledge base: " e ;; act_lift (Raise e))%act).
End Script.
End UpdateKbModel.

(** The calls of [update_knowledge_base] in a run. *)
Definition update_calls (t : list (effect UpdateKbModel.call)) : list value :=
  flat_map (fun ev => match ev with
                      | Called (UpdateKbModel.UpdateKnowledgeBase p) => [p]
                      | _ => []
                      end) t.

(** ** scripts/check_pdf_content.py *)

Module CheckPdfContent.

Inductive call : Type :=
| GetObject (bucket key : string).

(** What the script asks of the PyPDF2 reader: [len(pdf_reader.pages)] and
    the text extracted from [pdf_reader.pages[0]]. *)
Record pdf_reader : Type := {
  page_count : outcome nat;
  first_page_text : outcome string
}.

(** The S3 client, and the object of a bucket downloaded, read and opened
    as a PDF in one step. *)
Class Service : Type := {
  s3_client : outcome unit;
  open_pdf : string -> string -> outcome pdf_reader
}.

Definition SCANNED_WARNING : string :=
  LF ++ "WARNING: Very little text extracted. This might be a scanned PDF.".
Definition EXTRACTION_OK : string :=
  LF ++ "Text extraction successful. PDF appears to contain extractable text.".

Section Script.
Context {S : Service}.

Definition download_and_check_pdf (bucket_name key : string) : act call bool :=
  (_ <- act_lift s3_client ;;
   act_try
     (act_print ("Downloading " ++ key ++ " from " ++ bucket_name ++ "...") ;;
      reader <- act_call (GetObject bucket_name key) (open_pdf bucket_name key) ;;
      act_print (LF ++ "=== PDF Information ===") ;;
      shown <- act_lift (page_count reader) ;;
      act_print ("Number of pages: " ++ dec shown) ;;
      pages <- act_lift (page_count reader) ;;
      (if (0 <? pages)%nat then
         text <- act_lift (first_page_text reader) ;;
         act_print (LF ++ "=== First 500 characters of text ===") ;;
         act_print (str_take 500 text) ;;
         if (String.length (strip text) <? 50)%nat
         then act_print SCANNED_WARNING
         else act_print EXTRACTION_OK
       else act_ret tt) ;;
      act_ret true)
     (fun e => (act_print ("Error processing PDF: " ++ exn_msg e) ;; act_ret false)))%act.
End Script.
End CheckPdfContent.

(** ** Stand-ins for the other services *)

Definition example_rds (r : outcome value) : QueryRdsData.Service := {|
  QueryRdsData.execute_statement := fun _ _ _ _ _ => r
|}.

Definition example_admin (g u : outcome value) : UpdateKbModel.Service := {|
  UpdateKbModel.get_knowledge_base := fun _ => g;
  UpdateKbModel.update_knowledge_base := fun _ => u
|}.

Definition example_pdf (p : outcome CheckPdfContent.pdf_reader) : CheckPdfContent.Service := {|
  CheckPdfContent.s3_client := Return tt;
  CheckPdfContent.open_pdf := fun _ _ => p
|}.

(** Two columns, [id] and [note]. *)
Definition two_columns : list value :=
  [VDict [("name", VStr "id")]; VDict [("name", VStr "note")]].

(** A response of two records: a number with a text, and a number with a
    null and a field too many. *)
Definition two_records : list (string * value) :=
  [("columnMetadata", VList two_columns);
   ("records",
    VList [VList [VDict [("longValue", VInt 1)]; VDict [("stringValue", VStr "a")]];
           VList [VDict [("longValue", VInt 2)]; VDict [("isNull", VBool true)];
                  VDict [("stringValue", VStr "extra")]]])].

(** A response whose first record has one field for two columns. *)
Definition short_record : list (string * value) :=
  [("columnMetadata", VList two_columns);
   ("records", VList [VList [VDict [("longValue", VInt 1)]]])].

(** Three columns of a join, the first and the last both named [id]. *)
Definition repeated_columns : list value :=
  [VDict [("name", VStr "id")]; VDict [("name", VStr "note")]; VDict [("name", VStr "id")]].

(** A response of one record for them. *)
Definition joined_record : list (string * value) :=
  [("columnMetadata", VList repeated_columns);
   ("records",
    VList [VList [VDict [("longValue", VInt 1)]; VDict [("stringValue", VStr "a")];
                  VDict [("longValue", VInt 2)]]])].

(** A knowledge base as [get_knowledge_base] describes it. *)
Definition example_knowledge_base : list (string * value) :=
  [("name", VStr "kb");
   ("roleArn", VStr "arn:aws:iam::1:role/kb");
   ("knowledgeBaseConfiguration",
    VDict [("type", VStr "VECTOR");
           ("vectorKnowledgeBaseConfiguration",
            VDict [("embeddingModelArn", VStr "arn:embedding")])]);
   ("storageConfiguration", VDict [("type", VStr "RDS")]);
   ("status", VStr "ACTIVE")].

(** * Properties *)

Example dec_12 : dec 12 = "12" /\ dec 0 = "0" /\ dec_Z (-5) = "-5".
Proof. repeat split. Qed.

Example strip_ex : strip "  a b  " = "a b" /\ lower "Claude-V2" = "claude-v2".
Proof. split; reflexivity. Qed.

Example contains_ex :
  contains "claude" (lower "anthropic.CLAUDE-v2") = true
  /\ contains "titan" (lower "amazon.titan-text-express-v1") = true
  /\ contains "claude" (lower "meta.llama3") = false.
Proof. repeat split. Qed.

Example references_ex :
  QueryKnowledgeBase.format_references (B := example_builtins (fun _ => Return VNone))
    (VList [passage "abc"; VDict [("metadata", VDict [("source", VStr "s3://m.pdf"); ("page_number", VInt 4)])]])
  = Return (LF ++ "--- Reference 1 ---" ++ LF ++ "Source: Unknown" ++ LF ++ "Page: N/A" ++ LF
            ++ "Content: abc..." ++ LF ++ LF
            ++ "--- Reference 2 ---" ++ LF ++ "Source: s3://m.pdf" ++ LF ++ "Page: 4" ++ LF
            ++ "Content: No content...").
Proof. reflexivity. Qed.

Example context_ex :
  QueryKnowledgeBase.build_context (B := example_builtins (fun _ => Return VNone))
    (VList [passage "abc"; passage "de"])
  = Return ("Source 1:" ++ LF ++ "abc" ++ LF ++ LF ++ "Source 2:" ++ LF ++ "de").
Proof. reflexivity. Qed.

(** ** Strings and joins *)



Lemma str_take_short (n : nat) (s : string) :
  String.length s <= n -> str_take n s = s.
Proof.
  revert n; induction s as [|c s IH]; intros [|n] H; simpl in *; try reflexivity; try lia.
  now rewrite IH by lia.
Qed.

Lemma str_take_length (n : nat) (s : string) :
  n <= String.length s -> String.length (str_take n s) = n.
Proof.
  revert n; induction s as [|c s IH]; intros [|n] H; simpl in *; try reflexivity; try lia.
  now rewrite IH by lia.
Qed.

Lemma str_take_drop (n : nat) (s : string) : str_take n s ++ str_drop n s = s.
Proof.
  revert n; induction s as [|c s IH]; intros [|n]; simpl; try reflexivity.
  now rewrite IH.
Qed.




(** ** The comprehension over [enumerate] *)

Section EnumerateMap.
Context {A : Type} (f : nat -> value -> outcome A).

Lemma enumerate_map_length (items : list value) :
  forall start out, enumerate_map f start items = Return out ->
                    List.length out = List.length items.
Proof.
  induction items as [|x items IH]; intros start out H; simpl in H.
  - now inversion H.
  - destruct (f start x) as [a|e]; simpl in H; [|discriminate].
    destruct (enumerate_map f (S start) items) as [r|e] eqn:E; simpl in H; [|discriminate].
    inversion H; subst. simpl. f_equal. eapply IH, E.
Qed.

Lemma enumerate_map_nth (items : list value) :
  forall start out, enumerate_map f start items = Return out ->
    forall i x, nth_error items i = Some x ->
                exists a, nth_error out i = Some a /\ f (start + i) x = Return a.
Proof.
  induction items as [|y items IH]; intros start out H i x Hi.
  - destruct i; discriminate.
  - simpl in H.
    destruct (f start y) as [a|e] eqn:Ea; simpl in H; [|discriminate].
    destruct (enumerate_map f (S start) items) as [r|e] eqn:E; simpl in H; [|discriminate].
    inversion H; subst. destruct i as [|i]; simpl in Hi.
    + inversion Hi; subst. exists a. rewrite Nat.add_0_r. now split.
    + destruct (IH _ _ E _ _ Hi) as [b [Hb Hf]]. exists b. split; [exact Hb|].
      now rewrite Nat.add_succ_r.
Qed.

Lemma enumerate_map_app (l1 l2 : list value) :
  forall start,
    enumerate_map f start (l1 ++ l2)%list
    = (a <- enumerate_map f start l1 ;;
       b <- enumerate_map f (start + List.length l1) l2 ;;
       Return (a ++ b)%list)%outcome.
Proof.
  induction l1 as [|x l1 IH]; intro start; simpl.
  - rewrite Nat.add_0_r. destruct (enumerate_map f start l2); reflexivity.
  - destruct (f start x) as [a|e]; simpl; [|reflexivity].
    rewrite IH. rewrite Nat.add_succ_r.
    destruct (enumerate_map f (S start) l1) as [r|e]; simpl; [|reflexivity].
    destruct (enumerate_map f (S (start + List.length l1)) l2); reflexivity.
Qed.

(** The comprehension returns when every pass does. *)
Lemma enumerate_map_returns (items : list value) :
  (forall i x, In x items -> returns (f i x) = true) ->
  forall start, exists out, enumerate_map f start items = Return out.
Proof.
  induction items as [|x items IH]; intros H start; simpl.
  - now exists [].
  - assert (Hx : returns (f start x) = true) by (apply H; now left).
    destruct (f start x) as [a|e]; [|discriminate]. simpl.
    destruct (IH (fun i y Hy => H i y (or_intror Hy)) (S start)) as [r Hr].
    rewrite Hr. simpl. now exists (a :: r).
Qed.
End EnumerateMap.

Lemma returns_bind_return {T A} (g : outcome T) (h : T -> A) :
  returns (t <- g ;; Return (h t))%outcome = returns g.
Proof. now destruct g. Qed.


(** ** Reference and result formatting *)

Section Formatting.
Context {B : Builtins}.
Import QueryKnowledgeBase.

Lemma reference_entry_content (i : nat) (s : string) :
  reference_entry i (passage s)
  = Return (LF ++ "--- Reference " ++ dec i ++ " ---" ++ LF ++ "Source: Unknown" ++ LF
            ++ "Page: N/A" ++ LF ++ "Content: " ++ str_take 200 s ++ "...").
Proof. reflexivity. Qed.

(** The preview of [format_results] is the text itself up to 200
    characters, and its first 200 characters and the marker beyond. *)
Lemma preview_of_text (s : string) :
  QueryKbRetrieve.preview (VStr s)
  = Return (VStr (if (200 <? String.length s)%nat then str_take 200 s ++ "..." else s)).
Proof.
  unfold QueryKbRetrieve.preview. simpl.
  now destruct (200 <? String.length s)%nat.
Qed.

Lemma result_lines_content (i : nat) (s : string) :
  QueryKbRetrieve.result_lines i (passage s)
  = (relevance <- format_2f (VInt 0) ;;
     Return [LF ++ "Result " ++ dec i ++ " (Relevance: " ++ relevance ++ "):";
             "Source: Unknown source";
             "Content: " ++ (if (200 <? String.length s)%nat
                             then str_take 200 s ++ "..." else s)])%outcome.
Proof.
  unfold QueryKbRetrieve.result_lines, passage.
  change (py_get (VDict [("content", VDict [("text", VStr s)])]) "content" (VDict []))
    with (Return (VDict [("text", VStr s)])).
  change (py_get (VDict [("text", VStr s)]) "text" (VStr "")) with (Return (VStr s)).
  cbn [obind py_get lookup String.eqb Ascii.eqb Bool.eqb].
  rewrite preview_of_text. cbn [obind].
  now destruct (200 <? String.length s)%nat.
Qed.

(** C1, at a passage of three characters: [format_references] appends the
    marker to a preview that was not cut, where [format_results] leaves the
    text as it is.  For any text [s] the reference shows [s[:200]] and then
    the marker, whatever the length of [s]; the preview of [format_results]
    is [s] itself up to 200 characters, and [s[:200]] with the marker
    beyond. *)
Theorem format_references_marks_uncut_preview :
  format_references (VList [passage "abc"])
  = Return (LF ++ "--- Reference 1 ---" ++ LF ++ "Source: Unknown" ++ LF
            ++ "Page: N/A" ++ LF ++ "Content: abc...")
  /\ QueryKbRetrieve.preview (VStr "abc") = Return (VStr "abc")
  /\ (forall (i : nat) (s : string),
        reference_entry i (passage s)
        = Return (LF ++ "--- Reference " ++ dec i ++ " ---" ++ LF ++ "Source: Unknown" ++ LF
                  ++ "Page: N/A" ++ LF ++ "Content: " ++ str_take 200 s ++ "..."))
  /\ (forall s : string,
        QueryKbRetrieve.preview (VStr s)
        = Return (VStr (if (200 <? String.length s)%nat
                        then str_take 200 s ++ "..." else s)))
  /\ (forall s : string,
        String.length (str_take 200 s) = Nat.min 200 (String.length s)
        /\ str_take 200 s ++ str_drop 200 s = s).
Proof.
  split; [reflexivity|]. split; [reflexivity|]. split; [|split].
  - intros i s. apply reference_entry_content.
  - apply preview_of_text.
  - intro s. split; [|apply str_take_drop].
    destruct (Nat.le_ge_cases 200 (String.length s)) as [H|H].
    + rewrite str_take_length by exact H. lia.
    + rewrite str_take_short by exact H. lia.
Qed.

(** C2, as the code has it: on a non-empty list whose passages can be read,
    [format_references] joins exactly one entry per passage, the entry at
    position [i] being the reference numbered [i + 1] of the passage at
    position [i]; on the empty list it returns "No references found." with
    its full stop. *)
Theorem format_references_one_entry_per_passage (rs : list value) :
  rs <> [] ->
  Forall (fun r => returns (reference_fields r) = true) rs ->
  format_references (VList []) = Return "No references found."
  /\ exists entries,
       enumerate_map reference_entry 1 rs = Return entries
       /\ List.length entries = List.length rs
       /\ format_references (VList rs) = Return (join LF entries)
       /\ forall i r, nth_error rs i = Some r ->
            exists fields, reference_fields r = Return fields
                           /\ nth_error entries i = Some (reference_text (S i) fields).
Proof.
  intros Hne Hall. split; [reflexivity|].
  assert (R : forall i x, In x rs -> returns (reference_entry i x) = true).
  { intros i x Hx. unfold reference_entry. rewrite returns_bind_return.
    rewrite Forall_forall in Hall. now apply Hall. }
  destruct (enumerate_map_returns reference_entry rs R 1) as [entries He].
  exists entries. split; [exact He|]. split; [eapply enumerate_map_length, He|]. split.
  - unfold format_references. destruct rs as [|r rs]; [contradiction|].
    simpl py_truthy. simpl negb. cbv iota. simpl py_iter. cbv beta iota delta [obind].
    now rewrite He.
  - intros i r Hi. destruct (enumerate_map_nth _ _ _ _ He _ _ Hi) as [e [Hn Hf]].
    unfold reference_entry in Hf.
    destruct (reference_fields r) as [fields|]; [|discriminate].
    exists fields. split; [reflexivity|]. simpl in Hf. inversion Hf; subst. exact Hn.
Qed.

End Formatting.

(** ** Generation *)

Section Generation.
Context {B : Builtins} {W : Services}.
Import QueryKnowledgeBase.

(** [generate_response] once the context is built: one model call with the
    serialised body, then either the extracted text, or the report and the
    same exception again. *)
Lemma generate_response_run (m p : string) (rs : value) (ctx : string) :
  build_context rs = Return ctx ->
  generate_response m p rs
  = let body := json_dumps (request_body m (full_prompt ctx p)) in
    match (raw <- invoke_model m body ;;
           response_body <- json_loads raw ;;
           extract_text m response_body)%outcome with
    | Return v => ([InvokeModel m body], Return v)
    | Raise e => ([InvokeModel m body; Stdout ("Error generating response: " ++ exn_msg e)],
                  Raise e)
    end.
Proof.
  intro H. unfold generate_response. rewrite H. cbn [lift bind].
  set (body := json_dumps (request_body m (full_prompt ctx p))).
  cbn [emit bind lift]. 
  destruct (invoke_model m body) as [raw|e]; cbn; [|reflexivity].
  destruct (json_loads raw) as [rb|e]; cbn; [|reflexivity].
  destruct (extract_text m rb) as [v|e]; reflexivity.
Qed.

Lemma generate_response_calls_model (m p : string) (rs : value) (ctx : string) :
  build_context rs = Return ctx ->
  exists rest,
    fst (generate_response m p rs)
    = InvokeModel m (json_dumps (request_body m (full_prompt ctx p))) :: rest.
Proof.
  intro Hc. rewrite (generate_response_run m p rs ctx Hc). cbv zeta.
  destruct (raw <- invoke_model m (json_dumps (request_body m (full_prompt ctx p))) ;;
            response_body <- json_loads raw ;;
            extract_text m response_body)%outcome; eexists; reflexivity.
Qed.

Lemma generate_response_no_context (m p : string) (rs : value) (e : exn) :
  build_context rs = Raise e -> generate_response m p rs = ([], Raise e).
Proof. intro H. unfold generate_response. now rewrite H. Qed.

Lemma generate_response_propagates_failure_run (m p : string) (rs : value)
    (ctx : string) (e : exn) :
  build_context rs = Return ctx ->
  invoke_model m (json_dumps (request_body m (full_prompt ctx p))) = Raise e ->
  generate_response m p rs
  = ([InvokeModel m (json_dumps (request_body m (full_prompt ctx p)));
      Stdout ("Error generating response: " ++ exn_msg e)],
     Raise e)
  /\ forall v, snd (generate_response m p rs) <> Return v.
Proof.
  intros Hc Hi. rewrite (generate_response_run m p rs ctx Hc). cbv zeta.
  rewrite Hi. cbn [obind]. split; [reflexivity|]. intros v Hv. discriminate Hv.
Qed.

(** C5: when the model call fails, [generate_response] prints the error and
    raises the same exception; it returns no value. *)
Theorem generate_response_propagates_failure (m p : string) (rs : value)
    (ctx : string) (e : exn) :
  build_context rs = Return ctx ->
  invoke_model m (json_dumps (request_body m (full_prompt ctx p))) = Raise e ->
  generate_response m p rs
  = ([InvokeModel m (json_dumps (request_body m (full_prompt ctx p)));
      Stdout ("Error generating response: " ++ exn_msg e)],
     Raise e)
  /\ forall v, snd (generate_response m p rs) <> Return v.
Proof.
  intros Hc Hi. unfold generate_response. rewrite Hc. cbn [lift bind emit].
  rewrite Hi. cbn [try_except bind print emit lift app]. split; [reflexivity|].
  intros v Hv. cbn [snd] in Hv. discriminate Hv.
Qed.

(** C6: the body sent to the model is shaped by the family of the
    identifier.  With "claude" in the lower-cased identifier it carries
    "prompt", wrapped between "Human:" and "Assistant:", and
    "max_tokens_to_sample"; otherwise "prompt", as it is, and "max_tokens". *)
Theorem request_body_by_family (m p : string) (rs : value) (ctx : string) :
  build_context rs = Return ctx ->
  let prompt_text := full_prompt ctx p in
  let body := request_body m prompt_text in
  (exists rest, fst (generate_response m p rs) = InvokeModel m (json_dumps body) :: rest)
  /\ (contains "claude" (lower m) = true ->
      field_names body = ["prompt"; "max_tokens_to_sample"; "temperature"; "top_p"]
      /\ py_get body "prompt" VNone
         = Return (VStr (LF ++ LF ++ "Human: " ++ prompt_text ++ LF ++ LF ++ "Assistant:"))
      /\ py_get body "max_tokens_to_sample" VNone = Return (VInt 1000)
      /\ py_get body "max_tokens" VNone = Return VNone)
  /\ (contains "claude" (lower m) = false ->
      field_names body = ["prompt"; "max_tokens"; "temperature"; "top_p"]
      /\ py_get body "prompt" VNone = Return (VStr prompt_text)
      /\ py_get body "max_tokens" VNone = Return (VInt 1000)
      /\ py_get body "max_tokens_to_sample" VNone = Return VNone).
Proof.
  intros Hc prompt_text body. split; [|split].
  - now apply generate_response_calls_model.
  - intro H. subst body. unfold request_body, is_claude. rewrite H. repeat split.
  - intro H. subst body. unfold request_body, is_claude. rewrite H. repeat split.
Qed.




Lemma extract_text_titan_empty_results (m : string) (d : list (string * value)) :
  is_claude m = false -> is_titan m = true ->
  lookup "results" d = Some (VList []) ->
  extract_text m (VDict d) = Raise (IndexError "list index out of range").
Proof. intros H1 H2 H3. unfold extract_text. rewrite H1, H2. simpl. now rewrite H3. Qed.

Lemma repr_dict_not_sentinel (d : list (string * value)) :
  py_str (VDict d) <> NO_RESPONSE.
Proof. cbn. discriminate. Qed.

(** C10: for an identifier of neither family the result is [str] of the
    whole parsed body, whatever fields it has; for a dictionary that is
    never the "No response generated" text. *)
Theorem other_family_returns_whole_body (m p : string) (rs : value) (ctx raw : string)
    (response_body : value) :
  contains "claude" (lower m) = false ->
  contains "titan" (lower m) = false ->
  build_context rs = Return ctx ->
  invoke_model m (json_dumps (request_body m (full_prompt ctx p))) = Return raw ->
  json_loads raw = Return response_body ->
  generate_response m p rs
  = ([InvokeModel m (json_dumps (request_body m (full_prompt ctx p)))],
     Return (VStr (py_str response_body)))
  /\ forall d, response_body = VDict d -> py_str response_body <> NO_RESPONSE.
Proof.
  intros Hc Ht Hctx Hi Hl. split.
  - rewrite (generate_response_run m p rs ctx Hctx). cbv zeta.
    rewrite Hi. cbn [obind]. rewrite Hl. cbn [obind].
    unfold extract_text, is_claude, is_titan. now rewrite Hc, Ht.
  - intros d ->. apply repr_dict_not_sentinel.
Qed.
End Generation.

(** ** Rank order, from retrieval to prompt and references *)

Section RankOrder.
Context {B : Builtins} {W : Services}.
Import QueryKnowledgeBase.

End RankOrder.

(** ** Retrieval *)

Section Retrieval.
Context {B : Builtins} {W : Services}.

Lemma retrieve_failure_run (kb q : string) (n : Z) (e : exn) :
  retrieve kb q n = Raise e ->
  QueryKbRetrieve.query_knowledge_base kb q n
  = (Retrieve kb q n :: Stdout ("Error querying knowledge base: " ++ exn_msg e)
       :: match exn_response e with
          | Some r => [Stdout ("Error details: " ++ py_str r)]
          | None => []
          end,
     Return (VList [])).
Proof.
  intro H. unfold QueryKbRetrieve.query_knowledge_base. cbn [emit bind lift].
  rewrite H. cbn [try_except bind print emit app].
  destruct (exn_response e); reflexivity.
Qed.

Lemma query_knowledge_base_failure_run (kb q : string) (n : Z) (e : exn) :
  retrieve_and_generate kb q n = Raise e ->
  QueryKnowledgeBase.query_knowledge_base kb q n
  = ((retrieval_preamble kb q n ++ error_report e)%list,
     Return (VDict [("retrievalResults", VList [])])).
Proof.
  intro H. unfold QueryKnowledgeBase.query_knowledge_base, retrieval_preamble, error_report.
  unfold QueryKnowledgeBase.print_all. cbn [print emit bind lift ret].
  rewrite H. cbn [try_except bind print emit app ret].
  destruct (exn_response e); cbn [bind app ret]; rewrite ?app_nil_r, <- ?app_assoc;
    reflexivity.
Qed.

Lemma query_knowledge_base_success_run (kb q : string) (n : Z) (r : value) :
  retrieve_and_generate kb q n = Return r ->
  QueryKnowledgeBase.query_knowledge_base kb q n
  = ((retrieval_preamble kb q n
      ++ [Stdout (LF ++ "=== Query Response ==="); Stdout (json_dumps_indent r)])%list,
     Return r).
Proof.
  intro H. unfold QueryKnowledgeBase.query_knowledge_base, retrieval_preamble.
  unfold QueryKnowledgeBase.print_all. cbn [print emit bind lift ret].
  rewrite H. cbn [try_except bind print emit app ret].
  rewrite ?app_nil_r, <- ?app_assoc. reflexivity.
Qed.
End Retrieval.

(** ** The pipeline of [main] *)

Lemma terminal_of_last (t : list event) (line : string) :
  terminal_of (t ++ [Stdout line])%list = classify line.
Proof. unfold terminal_of. now rewrite last_last. Qed.

Lemma classify_error (msg : string) : classify ("Error: " ++ msg) = Some (FAILED msg).
Proof. unfold classify. cbn. now destruct msg. Qed.

Lemma no_generation_app (a b : list event) :
  no_generation (a ++ b)%list = no_generation a && no_generation b.
Proof. unfold no_generation. rewrite existsb_app. now destruct (existsb _ a). Qed.

Lemma no_generation_stdout (lines : list string) : no_generation (map Stdout lines) = true.
Proof.
  unfold no_generation. induction lines as [|l lines IH]; [reflexivity|]. exact IH.
Qed.

Section Pipeline.
Context {B : Builtins} {W : Services}.
Import QueryKnowledgeBase.

Lemma no_generation_preamble (kb q : string) (n : Z) :
  no_generation (retrieval_preamble kb q n) = true.
Proof.
  unfold retrieval_preamble. rewrite !no_generation_app, no_generation_stdout. reflexivity.
Qed.

Lemma no_generation_error_report (e : exn) : no_generation (error_report e) = true.
Proof.
  unfold error_report. rewrite !no_generation_app, no_generation_stdout.
  now destruct (exn_response e).
Qed.

(** Retrieval always returns, and neither calls the model nor formats
    references. *)
Lemma query_knowledge_base_returns (kb q : string) (n : Z) :
  exists t response,
    query_knowledge_base kb q n = (t, Return response) /\ no_generation t = true.
Proof.
  destruct (retrieve_and_generate kb q n) as [r|e] eqn:E.
  - rewrite (query_knowledge_base_success_run kb q n r E). do 2 eexists. split; [reflexivity|].
    now rewrite no_generation_app, no_generation_preamble.
  - rewrite (query_knowledge_base_failure_run kb q n e E). do 2 eexists. split; [reflexivity|].
    now rewrite no_generation_app, no_generation_preamble, no_generation_error_report.
Qed.

Lemma main_single_no_results (args : arguments) (q : string) (t : list event)
    (response rr : value) :
  query_knowledge_base (knowledge_base_id args) q (max_results args) = (t, Return response) ->
  py_get response "retrievalResults" (VList []) = Return rr ->
  py_truthy rr = false ->
  main_single args q
  = ((Stdout ("Querying knowledge base: " ++ q) :: Enter "query_knowledge_base" :: t)
       ++ [Stdout "No results found for your query."],
     Return tt)%list.
Proof.
  intros Hq Hr Ht. unfold main_single, entering. rewrite Hq. cbn [fst snd print emit bind lift].
  rewrite Hr. cbn [bind]. rewrite Ht. cbn [print emit bind try_except app].
  rewrite ?app_nil_r. reflexivity.
Qed.

Lemma main_single_generation_failure (args : arguments) (q : string) (t tg : list event)
    (response rr : value) (e : exn) :
  query_knowledge_base (knowledge_base_id args) q (max_results args) = (t, Return response) ->
  py_get response "retrievalResults" (VList []) = Return rr ->
  py_truthy rr = true ->
  generate_response (model_id args) q rr = (tg, Raise e) ->
  main_single args q
  = ((Stdout ("Querying knowledge base: " ++ q) :: Enter "query_knowledge_base"
        :: t ++ Enter "generate_response" :: tg)
       ++ [Stdout ("Error: " ++ exn_msg e)],
     Return tt)%list.
Proof.
  intros Hq Hr Ht Hg. unfold main_single, entering. rewrite Hq.
  cbn [fst snd print emit bind lift]. rewrite Hr. cbn [bind]. rewrite Ht, Hg.
  cbn [fst snd print emit bind try_except app]. rewrite ?app_nil_r.
  rewrite <- ?app_assoc. reflexivity.
Qed.

Lemma interactive_iteration_no_results (args : arguments) (q : string) (t : list event)
    (response rr : value) :
  String.eqb (lower q) "exit" || String.eqb (lower q) "quit" || String.eqb q "" = false ->
  query_knowledge_base (knowledge_base_id args) q (max_results args) = (t, Return response) ->
  py_get response "retrievalResults" (VList []) = Return rr ->
  py_truthy rr = false ->
  interactive_iteration args q
  = ((Stdout (LF ++ "Searching knowledge base...") :: Enter "query_knowledge_base" :: t)
       ++ [Stdout "No results found for your query."],
     Return Continue)%list.
Proof.
  intros Hc Hq Hr Ht. apply orb_false_elim in Hc as [Hc He]. 
  unfold interactive_iteration, entering. rewrite Hc, He, Hq.
  cbn [fst snd print emit bind lift]. rewrite Hr. cbn [bind]. rewrite Ht.
  cbn [print emit bind try_except app ret]. rewrite ?app_nil_r. reflexivity.
Qed.
End Pipeline.

Section Outcomes.
Context {B : Builtins} {W : Services}.
Import QueryKnowledgeBase.

(** C4: when the retrieval call raises, both versions of
    [query_knowledge_base] print the error and return without raising: the
    one of query_kb_retrieve.py the empty list, the one of
    query_knowledge_base.py a response whose "retrievalResults" is the empty
    list, so that [format_results] and [main] end with their "no results"
    lines. *)
Theorem retrieval_failure_yields_no_passages (kb q : string) (n : Z) (e : exn) :
  (retrieve kb q n = Raise e ->
   snd (QueryKbRetrieve.query_knowledge_base kb q n) = Return (VList [])
   /\ In (Stdout ("Error querying knowledge base: " ++ exn_msg e))
         (fst (QueryKbRetrieve.query_knowledge_base kb q n))
   /\ QueryKbRetrieve.format_results (VList []) = Return "No results found.")
  /\ (retrieve_and_generate kb q n = Raise e ->
      snd (query_knowledge_base kb q n) = Return (VDict [("retrievalResults", VList [])])
      /\ py_get (VDict [("retrievalResults", VList [])]) "retrievalResults" (VList [])
         = Return (VList [])
      /\ In (Stdout ("Error Message: " ++ exn_msg e)) (fst (query_knowledge_base kb q n))
      /\ forall m,
           main_single {| knowledge_base_id := kb; model_id := m; max_results := n |} q
           = ((Stdout ("Querying knowledge base: " ++ q) :: Enter "query_knowledge_base"
                 :: retrieval_preamble kb q n ++ error_report e)
                ++ [Stdout "No results found for your query."],
              Return tt)%list).
Proof.
  split; intro H.
  - rewrite (retrieve_failure_run kb q n e H). cbn [fst snd]. repeat split.
    right. now left.
  - pose proof (query_knowledge_base_failure_run kb q n e H) as R.
    rewrite R. cbn [fst snd]. repeat split.
    + apply in_or_app. right. unfold error_report. right. right. now left.
    + intro m.
      now apply (main_single_no_results
                   {| knowledge_base_id := kb; model_id := m; max_results := n |}
                   q _ _ (VList []) R).
Qed.

(** C8: when retrieval yields no passages, [main] ends with the
    "No results found" line and its run has no call of [generate_response],
    of the model, or of [format_references]; so does a pass of the
    interactive loop. *)
Theorem empty_retrieval_ends_without_generation (args : arguments) (q : string)
    (response : value) :
  snd (query_knowledge_base (knowledge_base_id args) q (max_results args)) = Return response ->
  py_get response "retrievalResults" (VList []) = Return (VList []) ->
  (terminal_of (fst (main_single args q)) = Some NO_RESULTS
   /\ no_generation (fst (main_single args q)) = true
   /\ snd (main_single args q) = Return tt)
  /\ (String.eqb (lower q) "exit" || String.eqb (lower q) "quit" || String.eqb q "" = false ->
      terminal_of (fst (interactive_iteration args q)) = Some NO_RESULTS
      /\ no_generation (fst (interactive_iteration args q)) = true
      /\ snd (interactive_iteration args q) = Return Continue).
Proof.
  intros Hs Hr.
  destruct (query_knowledge_base_returns (knowledge_base_id args) q (max_results args))
    as (t & r & Hq & Hn).
  rewrite Hq in Hs. cbn [snd] in Hs. inversion Hs; subst r. split.
  - rewrite (main_single_no_results args q t response (VList []) Hq Hr eq_refl).
    cbn [fst snd]. rewrite terminal_of_last, no_generation_app. repeat split.
    change (no_generation (Stdout ("Querying knowledge base: " ++ q)
                             :: Enter "query_knowledge_base" :: t))
      with (no_generation t). now rewrite Hn.
  - intro Hc.
    rewrite (interactive_iteration_no_results args q t response (VList []) Hc Hq Hr eq_refl).
    cbn [fst snd]. rewrite terminal_of_last, no_generation_app. repeat split.
    change (no_generation (Stdout (LF ++ "Searching knowledge base...")
                             :: Enter "query_knowledge_base" :: t))
      with (no_generation t). now rewrite Hn.
Qed.

(** C9, as the code has it: a failure of the model call ends [main] with an
    "Error:" line carrying the message, an outcome other than NO_RESULTS; a
    failure of the retrieval call is printed by [query_knowledge_base], and
    [main] then ends in NO_RESULTS as for an empty retrieval. *)
Theorem failures_in_the_pipeline (args : arguments) (q : string) :
  (forall e,
     retrieve_and_generate (knowledge_base_id args) q (max_results args) = Raise e ->
     In (Stdout ("Error Message: " ++ exn_msg e)) (fst (main_single args q))
     /\ terminal_of (fst (main_single args q)) = Some NO_RESULTS)
  /\ (forall response rr ctx e,
        snd (query_knowledge_base (knowledge_base_id args) q (max_results args))
        = Return response ->
        py_get response "retrievalResults" (VList []) = Return rr ->
        py_truthy rr = true ->
        build_context rr = Return ctx ->
        invoke_model (model_id args)
          (json_dumps (request_body (model_id args) (full_prompt ctx q))) = Raise e ->
        In (Stdout ("Error generating response: " ++ exn_msg e)) (fst (main_single args q))
        /\ terminal_of (fst (main_single args q)) = Some (FAILED (exn_msg e))
        /\ terminal_of (fst (main_single args q)) <> Some NO_RESULTS).
Proof.
  split.
  - intros e H.
    pose proof (query_knowledge_base_failure_run _ q _ e H) as R.
    rewrite (main_single_no_results args q _ _ (VList []) R eq_refl eq_refl).
    cbn [fst]. rewrite terminal_of_last. split; [|reflexivity].
    apply in_or_app. left. right. right. apply in_or_app. right.
    unfold error_report. right. right. now left.
  - intros response rr ctx e Hs Hr Ht Hc Hi.
    destruct (query_knowledge_base_returns (knowledge_base_id args) q (max_results args))
      as (t & r & Hq & Hn).
    rewrite Hq in Hs. cbn [snd] in Hs. inversion Hs; subst r.
    destruct (generate_response_propagates_failure_run (model_id args) q rr ctx e Hc Hi) as [G _].
    rewrite (main_single_generation_failure args q t _ response rr e Hq Hr Ht G).
    cbn [fst]. rewrite terminal_of_last, classify_error. repeat split.
    + apply in_or_app. left. right. right. apply in_or_app. right. right. right. now left.
    + discriminate.
Qed.
End Outcomes.

(** ** The properties at concrete inputs *)

Import QueryKnowledgeBase.

(** C7, at the Titan body with an empty "results" list: the text field is
    absent, and [generate_response] prints the error and raises IndexError
    where the claim has it return "No response generated".  With no
    "results" key at all, or no "completion" for Claude, it does return
    that text. *)
Theorem titan_empty_results_raises :
  snd (generate_response
         (B := example_builtins (fun _ => Return (VDict [("results", VList [])])))
         (W := world_answering empty_results_body)
         "amazon.titan-text-express-v1" "q" (VList [passage "abc"]))
  = Raise (IndexError "list index out of range")
  /\ In (Stdout "Error generating response: list index out of range")
        (fst (generate_response
                (B := example_builtins (fun _ => Return (VDict [("results", VList [])])))
                (W := world_answering empty_results_body)
                "amazon.titan-text-express-v1" "q" (VList [passage "abc"])))
  /\ extract_text (B := plain_builtins) "amazon.titan-text-express-v1" (VDict [])
     = Return (VStr "No response generated")
  /\ extract_text (B := plain_builtins) "anthropic.claude-v2" (VDict [])
     = Return (VStr "No response generated").
Proof.
  split; [reflexivity|]. split; [|split; reflexivity].
  right. left. reflexivity.
Qed.

Lemma format_references_sentinel_has_full_stop :
  format_references (B := plain_builtins) (VList []) <> Return "No references found".
Proof. discriminate. Qed.

Lemma format_references_one_entry_per_passage_witness :
  [passage "abc"; passage "de"] <> []
  /\ Forall (fun r => returns (reference_fields r) = true) [passage "abc"; passage "de"]
  /\ exists entries,
       List.length entries = 2
       /\ format_references (B := plain_builtins) (VList [passage "abc"; passage "de"])
          = Return (join LF entries).
Proof.
  assert (Hne : [passage "abc"; passage "de"] <> []) by discriminate.
  assert (Hall : Forall (fun r => returns (reference_fields r) = true)
                   [passage "abc"; passage "de"]) by (repeat constructor).
  destruct (format_references_one_entry_per_passage (B := plain_builtins) _ Hne Hall)
    as [_ (entries & _ & Hl & Hf & _)].
  split; [exact Hne|]. split; [exact Hall|]. exists entries. split; assumption.
Defined.


Lemma retrieval_failure_yields_no_passages_witness :
  retrieve (Services := world_down) "HBPKZNSUMS" "q" 3 = Raise service_down
  /\ retrieve_and_generate (Services := world_down) "HBPKZNSUMS" "q" 3 = Raise service_down
  /\ snd (QueryKbRetrieve.query_knowledge_base (B := plain_builtins) (W := world_down)
            "HBPKZNSUMS" "q" 3) = Return (VList [])
  /\ snd (query_knowledge_base (B := plain_builtins) (W := world_down) "HBPKZNSUMS" "q" 3)
     = Return (VDict [("retrievalResults", VList [])]).
Proof.
  destruct (retrieval_failure_yields_no_passages (B := plain_builtins) (W := world_down)
              "HBPKZNSUMS" "q" 3 service_down) as [R G].
  split; [reflexivity|]. split; [reflexivity|]. split.
  - exact (proj1 (R eq_refl)).
  - exact (proj1 (G eq_refl)).
Defined.

Lemma generate_response_propagates_failure_witness :
  build_context (B := plain_builtins) (VList [passage "abc"])
  = Return ("Source 1:" ++ LF ++ "abc")
  /\ invoke_model (Services := world_model_down) "anthropic.claude-v2"
       (json_dumps (Builtins := plain_builtins)
          (request_body "anthropic.claude-v2"
             (full_prompt ("Source 1:" ++ LF ++ "abc") "q")))
     = Raise service_down
  /\ snd (generate_response (B := plain_builtins) (W := world_model_down)
            "anthropic.claude-v2" "q" (VList [passage "abc"]))
     = Raise service_down.
Proof.
  split; [reflexivity|]. split; [reflexivity|].
  destruct (generate_response_propagates_failure (B := plain_builtins)
              (W := world_model_down) "anthropic.claude-v2" "q" (VList [passage "abc"])
              ("Source 1:" ++ LF ++ "abc") service_down eq_refl eq_refl) as [E _].
  rewrite E. reflexivity.
Defined.

Lemma request_body_by_family_witness :
  build_context (B := plain_builtins) (VList [passage "abc"])
  = Return ("Source 1:" ++ LF ++ "abc")
  /\ contains "claude" (lower "Anthropic.Claude-v2") = true
  /\ contains "claude" (lower "amazon.titan-text-express-v1") = false
  /\ field_names (request_body "Anthropic.Claude-v2"
                    (full_prompt ("Source 1:" ++ LF ++ "abc") "q"))
     = ["prompt"; "max_tokens_to_sample"; "temperature"; "top_p"]
  /\ field_names (request_body "amazon.titan-text-express-v1"
                    (full_prompt ("Source 1:" ++ LF ++ "abc") "q"))
     = ["prompt"; "max_tokens"; "temperature"; "top_p"].
Proof.
  destruct (request_body_by_family (B := plain_builtins) (W := world_model_down)
              "Anthropic.Claude-v2" "q" (VList [passage "abc"])
              ("Source 1:" ++ LF ++ "abc") eq_refl) as (_ & C & _).
  destruct (request_body_by_family (B := plain_builtins) (W := world_model_down)
              "amazon.titan-text-express-v1" "q" (VList [passage "abc"])
              ("Source 1:" ++ LF ++ "abc") eq_refl) as (_ & _ & T).
  split; [reflexivity|]. split; [reflexivity|]. split; [reflexivity|]. split.
  - exact (proj1 (C eq_refl)).
  - exact (proj1 (T eq_refl)).
Defined.

Lemma other_family_returns_whole_body_witness :
  contains "claude" (lower "meta.llama3-8b-instruct-v1:0") = false
  /\ contains "titan" (lower "meta.llama3-8b-instruct-v1:0") = false
  /\ snd (generate_response
            (B := example_builtins (fun _ => Return (VDict [("generation", VStr "hi")])))
            (W := world_answering "{}")
            "meta.llama3-8b-instruct-v1:0" "q" (VList [passage "abc"]))
     = Return (VStr "{'generation': 'hi'}").
Proof.
  split; [reflexivity|]. split; [reflexivity|].
  destruct (other_family_returns_whole_body
              (B := example_builtins (fun _ => Return (VDict [("generation", VStr "hi")])))
              (W := world_answering "{}")
              "meta.llama3-8b-instruct-v1:0" "q" (VList [passage "abc"])
              ("Source 1:" ++ LF ++ "abc") "{}" (VDict [("generation", VStr "hi")])
              eq_refl eq_refl eq_refl eq_refl eq_refl) as [E _].
  rewrite E. reflexivity.
Defined.

Lemma empty_retrieval_ends_without_generation_witness :
  snd (query_knowledge_base (B := plain_builtins) (W := world_empty) "HBPKZNSUMS" "payload?" 3)
  = Return (VDict [("retrievalResults", VList [])])
  /\ py_get (VDict [("retrievalResults", VList [])]) "retrievalResults" (VList [])
     = Return (VList [])
  /\ String.eqb (lower "payload?") "exit" || String.eqb (lower "payload?") "quit"
     || String.eqb "payload?" "" = false
  /\ terminal_of (fst (main_single (B := plain_builtins) (W := world_empty)
                         example_args "payload?")) = Some NO_RESULTS
  /\ no_generation (fst (interactive_iteration (B := plain_builtins) (W := world_empty)
                           example_args "payload?")) = true.
Proof.
  destruct (empty_retrieval_ends_without_generation (B := plain_builtins) (W := world_empty)
              example_args "payload?" (VDict [("retrievalResults", VList [])])
              eq_refl eq_refl) as [M I].
  split; [reflexivity|]. split; [reflexivity|]. split; [reflexivity|]. split.
  - exact (proj1 M).
  - exact (proj1 (proj2 (I eq_refl))).
Defined.

(** C9 fails for retrieval: with the service down, [main] ends in
    NO_RESULTS, as it does when the service answers with no passages, and
    [query_knowledge_base] hands it the same value in both runs. *)
Lemma retrieval_failure_ends_as_no_results :
  retrieve_and_generate (Services := world_down) "HBPKZNSUMS" "payload?" 3
  = Raise service_down
  /\ terminal_of (fst (main_single (B := plain_builtins) (W := world_down)
                         example_args "payload?")) = Some NO_RESULTS
  /\ terminal_of (fst (main_single (B := plain_builtins) (W := world_empty)
                         example_args "payload?")) = Some NO_RESULTS
  /\ snd (query_knowledge_base (B := plain_builtins) (W := world_down)
            "HBPKZNSUMS" "payload?" 3)
     = snd (query_knowledge_base (B := plain_builtins) (W := world_empty)
              "HBPKZNSUMS" "payload?" 3).
Proof. repeat split. Qed.

Lemma failures_in_the_pipeline_witness :
  retrieve_and_generate (Services := world_down) "HBPKZNSUMS" "payload?" 3
  = Raise service_down
  /\ terminal_of (fst (main_single (B := plain_builtins) (W := world_down)
                         example_args "payload?")) = Some NO_RESULTS
  /\ snd (query_knowledge_base (B := plain_builtins) (W := world_model_down)
            "HBPKZNSUMS" "payload?" 3)
     = Return (VDict [("retrievalResults", VList [passage "abc"])])
  /\ py_truthy (VList [passage "abc"]) = true
  /\ build_context (B := plain_builtins) (VList [passage "abc"])
     = Return ("Source 1:" ++ LF ++ "abc")
  /\ terminal_of (fst (main_single (B := plain_builtins) (W := world_model_down)
                         example_args "payload?"))
     = Some (FAILED "service unavailable").
Proof.
  destruct (failures_in_the_pipeline (B := plain_builtins) (W := world_down)
              example_args "payload?") as [R _].
  destruct (failures_in_the_pipeline (B := plain_builtins) (W := world_model_down)
              example_args "payload?") as [_ G].
  split; [reflexivity|]. split; [exact (proj2 (R service_down eq_refl))|].
  split; [reflexivity|]. split; [reflexivity|]. split; [reflexivity|].
  exact (proj1 (proj2 (G (VDict [("retrievalResults", VList [passage "abc"])])
                         (VList [passage "abc"]) ("Source 1:" ++ LF ++ "abc") service_down
                         eq_refl eq_refl eq_refl eq_refl eq_refl))).
Defined.

(** * Further properties of the scripts *)

(** ** Substrings and case *)

Lemma prefix_iff (n h : string) :
  String.prefix n h = true <-> exists post, h = n ++ post.
Proof.
  revert h; induction n as [|c n IH]; intro h.
  - split; [intros _; now exists h | intros _; now destruct h].
  - destruct h as [|d h]; simpl.
    + split; [discriminate | intros [post H]; discriminate].
    + destruct (ascii_dec c d) as [->|Hne].
      * rewrite IH. split; intros [post H]; exists post; [now rewrite H | now inversion H].
      * split; [discriminate | intros [post H]; inversion H; congruence].
Qed.

Lemma contains_unfold (n h : string) :
  contains n h
  = if String.prefix n h then true
    else match h with
         | EmptyString => false
         | String _ h' => contains n h'
         end.
Proof. destruct h; reflexivity. Qed.

Lemma contains_iff (n h : string) :
  contains n h = true <-> exists pre post, h = pre ++ n ++ post.
Proof.
  induction h as [|c h IH]; rewrite contains_unfold.
  - destruct (String.prefix n "") eqn:E.
    + apply prefix_iff in E as [post E]. split; [intros _ | reflexivity].
      exists "", post. exact E.
    + split; [discriminate|]. intros (pre & post & H).
      destruct pre; simpl in H.
      * assert (P : String.prefix n "" = true) by (apply prefix_iff; now exists post).
        congruence.
      * discriminate.
  - destruct (String.prefix n (String c h)) eqn:E.
    + apply prefix_iff in E as [post E]. split; [intros _ | reflexivity].
      exists "", post. exact E.
    + rewrite IH. split.
      * intros (pre & post & H). exists (String c pre), post. simpl. now rewrite H.
      * intros (pre & post & H). destruct pre as [|d pre]; simpl in H.
        -- assert (P : String.prefix n (String c h) = true)
             by (apply prefix_iff; now exists post).
           congruence.
        -- inversion H. now exists pre, post.
Qed.

Lemma lower_char_idempotent (c : ascii) : lower_char (lower_char c) = lower_char c.
Proof. destruct c as [[] [] [] [] [] [] [] []]; reflexivity. Qed.

Lemma lower_idempotent (s : string) : lower (lower s) = lower s.
Proof.
  induction s as [|c s IH]; simpl; [reflexivity|].
  now rewrite lower_char_idempotent, IH.
Qed.

(** X13: the family of a model identifier is decided by whether "claude"
    occurs anywhere in its lower-cased form, so the identifier and its
    lower-cased form get the same request body and the same reading of the
    response. *)
Theorem family_selection_ignores_case (m : string) :
  (QueryKnowledgeBase.is_claude m = true
   <-> exists pre post, lower m = pre ++ "claude" ++ post)
  /\ (QueryKnowledgeBase.is_titan m = true
      <-> exists pre post, lower m = pre ++ "titan" ++ post)
  /\ (forall prompt_text,
        QueryKnowledgeBase.request_body (lower m) prompt_text
        = QueryKnowledgeBase.request_body m prompt_text)
  /\ (forall (B : Builtins) response_body,
        QueryKnowledgeBase.extract_text (lower m) response_body
        = QueryKnowledgeBase.extract_text m response_body).
Proof.
  split; [apply contains_iff|]. split; [apply contains_iff|]. split.
  - intro p. unfold QueryKnowledgeBase.request_body, QueryKnowledgeBase.is_claude.
    now rewrite lower_idempotent.
  - intros B rb.
    unfold QueryKnowledgeBase.extract_text, QueryKnowledgeBase.is_claude,
      QueryKnowledgeBase.is_titan.
    now rewrite lower_idempotent.
Qed.

(** ** Generation: what is called and printed *)

Lemma enumerate_map_raises {A} (f : nat -> value -> outcome A) (l1 l2 : list value)
    (x : value) (e : exn) (start : nat) :
  (forall i y, In y l1 -> returns (f i y) = true) ->
  f (start + List.length l1) x = Raise e ->
  enumerate_map f start (l1 ++ x :: l2)%list = Raise e.
Proof.
  intros H Hx. rewrite enumerate_map_app.
  destruct (enumerate_map_returns f l1 H start) as [out Ho]. rewrite Ho.
  simpl. now rewrite Hx.
Qed.

Section GenerationMore.
Context {B : Builtins} {W : Services}.
Import QueryKnowledgeBase.

(** X1: a passage without a "content" key, whatever else it carries, makes
    [generate_response] raise KeyError before the model is called and
    without printing anything.  [format_references] shows the same passage
    with "No content": with the default source and page when it has no
    metadata, with those of its metadata when that is a dictionary, and it
    fails on [.get] when the metadata is anything else. *)
Theorem missing_content_raises_before_the_call (m p : string) (l1 l2 : list value)
    (d : list (string * value)) :
  Forall (fun r => returns (passage_text r) = true) l1 ->
  lookup "content" d = None ->
  generate_response m p (VList (l1 ++ VDict d :: l2)) = ([], Raise (KeyError "content"))
  /\ forall i,
       reference_entry i (VDict d)
       = match lookup "metadata" d with
         | None =>
             Return (LF ++ "--- Reference " ++ dec i ++ " ---" ++ LF
                     ++ "Source: Unknown" ++ LF
                     ++ "Page: N/A" ++ LF
                     ++ "Content: No content...")
         | Some (VDict meta) =>
             Return (LF ++ "--- Reference " ++ dec i ++ " ---" ++ LF
                     ++ "Source: "
                     ++ py_str (match lookup "source" meta with
                                | Some v => v
                                | None => VStr "Unknown"
                                end) ++ LF
                     ++ "Page: "
                     ++ py_str (match lookup "page_number" meta with
                                | Some v => v
                                | None => VStr "N/A"
                                end) ++ LF
                     ++ "Content: No content...")
         | Some v =>
             Raise (AttributeError ("'" ++ type_name v ++ "' object has no attribute 'get'"))
         end.
Proof.
  intros Hl Hc. split.
  - apply generate_response_no_context. unfold build_context. simpl py_iter.
    cbv beta iota delta [obind].
    rewrite (enumerate_map_raises source_block l1 l2 (VDict d) (KeyError "content") 0).
    + reflexivity.
    + intros i y Hy. unfold source_block. rewrite returns_bind_return.
      rewrite Forall_forall in Hl. now apply Hl.
    + unfold source_block, passage_text. simpl py_item. now rewrite Hc.
  - intro i. unfold reference_entry, reference_fields. simpl py_get.
    rewrite Hc. destruct (lookup "metadata" d) as [[]|]; reflexivity.
Qed.

(** X2: one run of [generate_response] calls the model at most once.  It
    either fails on the context with nothing printed or called, or calls
    the model once and returns with nothing printed, or calls it once,
    prints one "Error generating response" line and raises the exception
    that line reports. *)
Theorem generate_response_calls_at_most_once (m p : string) (rs : value) :
  ((exists e, build_context rs = Raise e /\ generate_response m p rs = ([], Raise e))
   \/ (exists ctx,
         build_context rs = Return ctx
         /\ ((exists v,
                generate_response m p rs
                = ([InvokeModel m (json_dumps (request_body m (full_prompt ctx p)))],
                   Return v))
             \/ (exists e,
                   generate_response m p rs
                   = ([InvokeModel m (json_dumps (request_body m (full_prompt ctx p)));
                       Stdout ("Error generating response: " ++ exn_msg e)],
                      Raise e)))))
  /\ model_calls (fst (generate_response m p rs)) <= 1.
Proof.
  destruct (build_context rs) as [ctx|e] eqn:E.
  - rewrite (generate_response_run m p rs ctx E). cbv zeta.
    destruct (raw <- invoke_model m (json_dumps (request_body m (full_prompt ctx p))) ;;
              response_body <- json_loads raw ;;
              extract_text m response_body)%outcome as [v|e].
    + split; [|cbn; lia]. right. exists ctx. split; [reflexivity|]. left. now exists v.
    + split; [|cbn; lia]. right. exists ctx. split; [reflexivity|]. right. now exists e.
  - rewrite (generate_response_no_context m p rs e E). split; [|cbn; lia].
    left. now exists e.
Qed.

End GenerationMore.

(** ** The whole pipeline, query by query *)

Lemma last_app_cons {A} (l1 l2 : list A) (x d : A) :
  last (l1 ++ x :: l2) d = last (x :: l2) d.
Proof.
  induction l1 as [|y l1 IH]; [reflexivity|].
  simpl app. rewrite <- IH. simpl. now destruct (l1 ++ x :: l2)%list eqn:E;
    [destruct l1; discriminate|].
Qed.

Lemma model_calls_app (a b : list event) :
  model_calls (a ++ b) = model_calls a + model_calls b.
Proof. unfold model_calls. now rewrite filter_app, length_app. Qed.

Lemma retrieval_calls_app (a b : list event) :
  retrieval_calls (a ++ b) = retrieval_calls a + retrieval_calls b.
Proof. unfold retrieval_calls. now rewrite filter_app, length_app. Qed.

Lemma model_calls_stdout (lines : list string) : model_calls (map Stdout lines) = 0.
Proof. unfold model_calls. induction lines; [reflexivity | exact IHlines]. Qed.

Lemma retrieval_calls_stdout (lines : list string) : retrieval_calls (map Stdout lines) = 0.
Proof. unfold retrieval_calls. induction lines; [reflexivity | exact IHlines]. Qed.

Ltac count_calls :=
  rewrite ?app_comm_cons;
  rewrite ?model_calls_app, ?retrieval_calls_app, ?model_calls_stdout, ?retrieval_calls_stdout;
  cbn [model_calls retrieval_calls filter is_model_call is_retrieval_call List.length];
  repeat match goal with
         | |- context [List.length (filter is_model_call ?t)] => fold (model_calls t)
         | |- context [List.length (filter is_retrieval_call ?t)] => fold (retrieval_calls t)
         end.

Ltac last_line :=
  unfold terminal_of; rewrite ?app_comm_cons, ?last_app_cons; cbn [last].

Section PipelineMore.
Context {B : Builtins} {W : Services}.
Import QueryKnowledgeBase.

Lemma generate_response_shapes (m p : string) (rs : value) :
  (exists e, generate_response m p rs = ([], Raise e))
  \/ (exists body v, generate_response m p rs = ([InvokeModel m body], Return v))
  \/ (exists body e,
        generate_response m p rs
        = ([InvokeModel m body; Stdout ("Error generating response: " ++ exn_msg e)],
           Raise e)).
Proof.
  destruct (build_context rs) as [ctx|e] eqn:E.
  - rewrite (generate_response_run m p rs ctx E). cbv zeta.
    destruct (raw <- invoke_model m (json_dumps (request_body m (full_prompt ctx p))) ;;
              response_body <- json_loads raw ;;
              extract_text m response_body)%outcome as [v|e].
    + right. left. now do 2 eexists.
    + right. right. now do 2 eexists.
  - left. exists e. now apply generate_response_no_context.
Qed.

Lemma retrieval_preamble_calls (kb q : string) (n : Z) :
  retrieval_calls (retrieval_preamble kb q n) = 1
  /\ model_calls (retrieval_preamble kb q n) = 0.
Proof. unfold retrieval_preamble. split; count_calls; reflexivity. Qed.

Lemma error_report_calls (e : exn) :
  retrieval_calls (error_report e) = 0 /\ model_calls (error_report e) = 0.
Proof.
  unfold error_report. split; count_calls; destruct (exn_response e); reflexivity.
Qed.

(** What retrieval leaves in the run: one call of the service, none of the
    model. *)
Lemma query_knowledge_base_trace (kb q : string) (n : Z) :
  exists t response,
    query_knowledge_base kb q n = (t, Return response)
    /\ retrieval_calls t = 1 /\ model_calls t = 0
    /\ (forall r, retrieve_and_generate kb q n = Return r -> response = r).
Proof.
  destruct (retrieval_preamble_calls kb q n) as [R M].
  destruct (retrieve_and_generate kb q n) as [r|e] eqn:E.
  - rewrite (query_knowledge_base_success_run kb q n r E). do 2 eexists.
    split; [reflexivity|]. split; [|split].
    + rewrite retrieval_calls_app, R. reflexivity.
    + rewrite model_calls_app, M. reflexivity.
    + intros r' H. now inversion H.
  - rewrite (query_knowledge_base_failure_run kb q n e E). do 2 eexists.
    destruct (error_report_calls e) as [R' M'].
    split; [reflexivity|]. split; [|split].
    + now rewrite retrieval_calls_app, R, R'.
    + now rewrite model_calls_app, M, M'.
    + discriminate.
Qed.

Lemma show_answer_run (v rr : value) :
  show_answer v rr
  = let head := [Stdout (LF ++ rep "=" 80); Stdout "RESPONSE:"; Stdout (rep "-" 80)] in
    match py_strip v with
    | Raise e => (head, Raise e)
    | Return text =>
        let body := (head ++ [Stdout text; Stdout (LF ++ rep "=" 80);
                              Stdout (LF ++ "REFERENCES:"); Stdout (rep "-" 80);
                              Enter "format_references"])%list in
        match format_references rr with
        | Raise e => (body, Raise e)
        | Return references =>
            ((body ++ [Stdout references; Stdout (rep "=" 80 ++ LF)])%list, Return tt)
        end
    end.
Proof.
  unfold show_answer, entering. cbn [print emit bind lift].
  destruct (py_strip v) as [text|e]; [|reflexivity]. cbn [bind lift print emit app].
  destruct (format_references rr) as [refs|e]; reflexivity.
Qed.
End PipelineMore.

Section PipelineRuns.
Context {B : Builtins} {W : Services}.
Import QueryKnowledgeBase.

(** X4: [main] with [--query] never raises and always ends in one of the
    three terminal states, after exactly one call of the retrieval service
    and at most one call of the model. *)
Theorem main_single_always_ends (args : arguments) (q : string) :
  snd (main_single args q) = Return tt
  /\ (exists o, terminal_of (fst (main_single args q)) = Some o)
  /\ retrieval_calls (fst (main_single args q)) = 1
  /\ model_calls (fst (main_single args q)) <= 1.
Proof.
  destruct (query_knowledge_base_trace (knowledge_base_id args) q (max_results args))
    as (t & response & Hq & Hr & Hm & _).
  unfold main_single, entering. rewrite Hq. cbn [fst snd print emit bind lift].
  destruct (py_get response "retrievalResults" (VList [])) as [rr|e];
    cbn [bind try_except print emit app fst snd].
  2:{ split; [reflexivity|]. split; [|split].
      - eexists. last_line. apply classify_error.
      - count_calls. lia.
      - count_calls. lia. }
  destruct (py_truthy rr).
  2:{ cbn [bind try_except print emit app fst snd]. split; [reflexivity|]. split; [|split].
      - eexists. last_line. reflexivity.
      - count_calls. lia.
      - count_calls. lia. }
  destruct (generate_response_shapes (model_id args) q rr)
    as [[e G] | [(body & v & G) | (body & e & G)]]; rewrite G;
    cbn [bind try_except print emit app fst snd].
  - split; [reflexivity|]. split; [|split].
    + eexists. last_line. apply classify_error.
    + count_calls. lia.
    + count_calls. lia.
  - rewrite show_answer_run. cbv zeta.
    destruct (py_strip v) as [text|e]; [destruct (format_references rr) as [refs|e]|];
      cbn [bind try_except print emit app fst snd]; (split; [reflexivity|]); (split; [|split]);
      try (count_calls; lia).
    + eexists. last_line. reflexivity.
    + eexists. last_line. apply classify_error.
    + eexists. last_line. apply classify_error.
  - split; [reflexivity|]. split; [|split].
    + eexists. last_line. apply classify_error.
    + count_calls. lia.
    + count_calls. lia.
Qed.
End PipelineRuns.

Section PipelineAnswers.
Context {B : Builtins} {W : Services}.
Import QueryKnowledgeBase.

(** X5: when retrieval finds passages, the model answers with a text and
    the references can be formatted, [main] prints, in this order, the
    retrieval report, the answer stripped of surrounding white space under
    RESPONSE, and the references under REFERENCES, and ends in DONE. *)
Theorem main_single_prints_answer_then_references (args : arguments) (q : string)
    (r response_body : value) (rs : list value) (ctx raw text refs : string) :
  retrieve_and_generate (knowledge_base_id args) q (max_results args) = Return r ->
  py_get r "retrievalResults" (VList []) = Return (VList rs) ->
  rs <> [] ->
  build_context (VList rs) = Return ctx ->
  invoke_model (model_id args)
    (json_dumps (request_body (model_id args) (full_prompt ctx q))) = Return raw ->
  json_loads raw = Return response_body ->
  extract_text (model_id args) response_body = Return (VStr text) ->
  format_references (VList rs) = Return refs ->
  main_single args q
  = ((Stdout ("Querying knowledge base: " ++ q) :: Enter "query_knowledge_base"
        :: retrieval_preamble (knowledge_base_id args) q (max_results args)
        ++ [Stdout (LF ++ "=== Query Response ==="); Stdout (json_dumps_indent r);
            Enter "generate_response";
            InvokeModel (model_id args)
              (json_dumps (request_body (model_id args) (full_prompt ctx q)));
            Stdout (LF ++ rep "=" 80); Stdout "RESPONSE:"; Stdout (rep "-" 80);
            Stdout (strip text);
            Stdout (LF ++ rep "=" 80); Stdout (LF ++ "REFERENCES:"); Stdout (rep "-" 80);
            Enter "format_references"; Stdout refs; Stdout (rep "=" 80 ++ LF)])%list,
     Return tt)
  /\ terminal_of (fst (main_single args q)) = Some DONE.
Proof.
  intros Hr Hg Hne Hc Hi Hl He Hf.
  assert (G : generate_response (model_id args) q (VList rs)
              = ([InvokeModel (model_id args)
                    (json_dumps (request_body (model_id args) (full_prompt ctx q)))],
                 Return (VStr text))).
  { rewrite (generate_response_run _ q _ ctx Hc). cbv zeta.
    rewrite Hi. cbn [obind]. rewrite Hl. cbn [obind]. now rewrite He. }
  assert (T : py_truthy (VList rs) = true) by (destruct rs; [contradiction | reflexivity]).
  assert (M : main_single args q
              = ((Stdout ("Querying knowledge base: " ++ q) :: Enter "query_knowledge_base"
                    :: retrieval_preamble (knowledge_base_id args) q (max_results args)
                    ++ [Stdout (LF ++ "=== Query Response ==="); Stdout (json_dumps_indent r);
                        Enter "generate_response";
                        InvokeModel (model_id args)
                          (json_dumps (request_body (model_id args) (full_prompt ctx q)));
                        Stdout (LF ++ rep "=" 80); Stdout "RESPONSE:"; Stdout (rep "-" 80);
                        Stdout (strip text);
                        Stdout (LF ++ rep "=" 80); Stdout (LF ++ "REFERENCES:");
                        Stdout (rep "-" 80);
                        Enter "format_references"; Stdout refs;
                        Stdout (rep "=" 80 ++ LF)])%list,
                 Return tt)).
  { unfold main_single, entering.
    rewrite (query_knowledge_base_success_run _ q _ r Hr).
    cbn [fst snd print emit bind lift]. rewrite Hg. cbn [bind]. rewrite T, G.
    cbn [fst snd bind app]. rewrite show_answer_run. cbv zeta.
    cbn [py_strip]. rewrite Hf. cbn [bind try_except print emit app fst snd].
    rewrite <- ?app_assoc. reflexivity. }
  split; [exact M|]. rewrite M. cbn [fst]. last_line. reflexivity.
Qed.

(** X6: when the model's answer is not a text (a null "completion", say),
    [main] has already printed the RESPONSE heading when [strip] fails on
    it: the run ends with an "Error:" line naming the missing attribute,
    and the references are never formatted. *)
Theorem main_single_fails_on_non_text_answer (args : arguments) (q : string)
    (r response_body v : value) (rs : list value) (ctx raw : string) :
  retrieve_and_generate (knowledge_base_id args) q (max_results args) = Return r ->
  py_get r "retrievalResults" (VList []) = Return (VList rs) ->
  rs <> [] ->
  build_context (VList rs) = Return ctx ->
  invoke_model (model_id args)
    (json_dumps (request_body (model_id args) (full_prompt ctx q))) = Return raw ->
  json_loads raw = Return response_body ->
  extract_text (model_id args) response_body = Return v ->
  (forall s, v <> VStr s) ->
  main_single args q
  = ((Stdout ("Querying knowledge base: " ++ q) :: Enter "query_knowledge_base"
        :: retrieval_preamble (knowledge_base_id args) q (max_results args)
        ++ [Stdout (LF ++ "=== Query Response ==="); Stdout (json_dumps_indent r);
            Enter "generate_response";
            InvokeModel (model_id args)
              (json_dumps (request_body (model_id args) (full_prompt ctx q)));
            Stdout (LF ++ rep "=" 80); Stdout "RESPONSE:"; Stdout (rep "-" 80);
            Stdout ("Error: '" ++ type_name v ++ "' object has no attribute 'strip'")])%list,
     Return tt).
Proof.
  intros Hr Hg Hne Hc Hi Hl He Hv.
  assert (G : generate_response (model_id args) q (VList rs)
              = ([InvokeModel (model_id args)
                    (json_dumps (request_body (model_id args) (full_prompt ctx q)))],
                 Return v)).
  { rewrite (generate_response_run _ q _ ctx Hc). cbv zeta.
    rewrite Hi. cbn [obind]. rewrite Hl. cbn [obind]. now rewrite He. }
  assert (T : py_truthy (VList rs) = true) by (destruct rs; [contradiction | reflexivity]).
  assert (S : py_strip v
              = Raise (AttributeError ("'" ++ type_name v
                                       ++ "' object has no attribute 'strip'"))).
  { destruct v; try reflexivity. now destruct (Hv s). }
  unfold main_single, entering.
  rewrite (query_knowledge_base_success_run _ q _ r Hr).
  cbn [fst snd print emit bind lift]. rewrite Hg. cbn [bind]. rewrite T, G.
  cbn [fst snd bind app]. rewrite show_answer_run. cbv zeta. rewrite S.
  cbn [bind try_except print emit app fst snd exn_msg AttributeError].
  rewrite <- ?app_assoc. reflexivity.
Qed.

(** X7: a pass of the interactive loop never raises: it asks to stop
    exactly on "exit" or "quit" in any letter case, then without printing or
    calling anything, as it does on an empty line; every error is caught,
    and the model is called at most once. *)
Theorem interactive_iteration_survives_errors (args : arguments) (q : string) :
  snd (interactive_iteration args q) = Return (if is_exit q then Break else Continue)
  /\ (is_exit q = true \/ q = "" -> fst (interactive_iteration args q) = [])
  /\ model_calls (fst (interactive_iteration args q)) <= 1.
Proof.
  unfold interactive_iteration, is_exit.
  destruct (String.eqb (lower q) "exit" || String.eqb (lower q) "quit") eqn:E.
  { cbn. repeat split. lia. }
  destruct (String.eqb q "") eqn:E0.
  { cbn. repeat split. lia. }
  assert (N : ~ (false = true \/ q = "")).
  { intros [H|H]; [discriminate|]. subst q. discriminate. }
  destruct (query_knowledge_base_trace (knowledge_base_id args) q (max_results args))
    as (t & response & Hq & Hr & Hm & _).
  unfold entering. rewrite Hq. cbn [fst snd print emit bind lift].
  destruct (py_get response "retrievalResults" (VList [])) as [rr|e];
    cbn [bind try_except print emit app fst snd ret].
  2:{ split; [reflexivity|]. split; [intro H; now destruct (N H)|]. count_calls. lia. }
  destruct (py_truthy rr).
  2:{ cbn [bind try_except print emit app fst snd ret].
      split; [reflexivity|]. split; [intro H; now destruct (N H)|]. count_calls. lia. }
  cbn [bind try_except print emit app fst snd ret].
  destruct (generate_response_shapes (model_id args) q rr)
    as [[e G] | [(body & v & G) | (body & e & G)]]; rewrite G;
    cbn [bind try_except print emit app fst snd ret].
  - split; [reflexivity|]. split; [intro H; now destruct (N H)|]. count_calls. lia.
  - rewrite show_answer_run. cbv zeta.
    destruct (py_strip v) as [text|e]; [destruct (format_references rr) as [refs|e]|];
      cbn [bind try_except print emit app fst snd ret];
      (split; [reflexivity|]); (split; [intro H; now destruct (N H)|]); count_calls; lia.
  - split; [reflexivity|]. split; [intro H; now destruct (N H)|]. count_calls. lia.
Qed.
End PipelineAnswers.

(** ** The interactive loop *)

Lemma lstrip_all_space (s : string) : all_space s = true -> lstrip s = "".
Proof.
  induction s as [|c s IH]; [reflexivity|]. simpl. intro H.
  apply andb_true_iff in H as [Hc Hs]. rewrite Hc. now apply IH.
Qed.

Lemma strip_all_space (s : string) : all_space s = true -> strip s = "".
Proof. intro H. unfold strip. now rewrite lstrip_all_space. Qed.

Section InteractiveLoop.
Context {B : Builtins} {W : Services}.
Import QueryKnowledgeBase.

Lemma interactive_iteration_exit (args : arguments) (q : string) :
  is_exit q = true -> interactive_iteration args q = ([], Return Break).
Proof. unfold is_exit, interactive_iteration. now intros ->. Qed.

Lemma interactive_iteration_empty (args : arguments) :
  interactive_iteration args "" = ([], Return Continue).
Proof. reflexivity. Qed.

(** X8: the interactive loop stops at the first "exit" or "quit" line,
    surrounding white space and letter case apart: the lines typed after it
    change nothing in the run. *)
Theorem interactive_loop_stops_at_exit (args : arguments) (l1 rest : list string)
    (line : string) :
  is_exit (strip line) = true ->
  interactive_loop args (l1 ++ line :: rest) = interactive_loop args (l1 ++ [line])
  /\ main args None (l1 ++ line :: rest) = main args None (l1 ++ [line]).
Proof.
  intro H.
  assert (L : interactive_loop args (l1 ++ line :: rest)
              = interactive_loop args (l1 ++ [line])).
  { induction l1 as [|a l1 IH].
    - simpl. now rewrite (interactive_iteration_exit args _ H).
    - simpl. destruct (interactive_iteration args (strip a)) as [t [[|]|e]];
        now rewrite ?IH. }
  split; [exact L|]. unfold main, interactive_mode. now rewrite L.
Qed.

(** X9: a line of white space only is skipped: the loop prompts again and
    neither prints nor calls a service for it. *)
Theorem interactive_loop_skips_blank_lines (args : arguments) (line : string)
    (rest : list string) :
  all_space line = true ->
  interactive_loop args (line :: rest)
  = Prompt (LF ++ "Enter your question: ") :: interactive_loop args rest.
Proof.
  intro H. simpl. rewrite (strip_all_space line H), interactive_iteration_empty.
  reflexivity.
Qed.
End InteractiveLoop.

(** ** Retrieval, once more *)

Section RetrievalMore.
Context {B : Builtins} {W : Services}.

(** X10: [query_knowledge_base] of query_knowledge_base.py always returns,
    after exactly one call of the service and none of the model; when the
    service answers, the response is printed and handed back unchanged. *)
Theorem query_knowledge_base_hands_back_the_response (kb q : string) (n : Z) :
  (exists t response,
     QueryKnowledgeBase.query_knowledge_base kb q n = (t, Return response)
     /\ retrieval_calls t = 1 /\ model_calls t = 0)
  /\ (forall r,
        retrieve_and_generate kb q n = Return r ->
        QueryKnowledgeBase.query_knowledge_base kb q n
        = ((retrieval_preamble kb q n
            ++ [Stdout (LF ++ "=== Query Response ==="); Stdout (json_dumps_indent r)])%list,
           Return r)).
Proof.
  split.
  - destruct (query_knowledge_base_trace kb q n) as (t & r & H & R & M & _).
    now exists t, r.
  - intros r H. now apply query_knowledge_base_success_run.
Qed.

(** X11: [query_knowledge_base] of query_kb_retrieve.py never raises and
    calls the service once.  From a dictionary it returns the value under
    "retrievalResults" as it is, neither sorted nor cut to [max_results],
    and the empty list when the key is missing; a response that is no
    dictionary is reported as an error and gives the empty list. *)
Theorem retrieve_returns_the_results_unchanged (kb q : string) (n : Z) :
  (exists t v,
     QueryKbRetrieve.query_knowledge_base kb q n = (t, Return v) /\ retrieval_calls t = 1)
  /\ (forall d,
        retrieve kb q n = Return (VDict d) ->
        QueryKbRetrieve.query_knowledge_base kb q n
        = ([Retrieve kb q n],
           Return (match lookup "retrievalResults" d with
                   | Some v => v
                   | None => VList []
                   end)))
  /\ (forall r,
        retrieve kb q n = Return r -> (forall d, r <> VDict d) ->
        QueryKbRetrieve.query_knowledge_base kb q n
        = ([Retrieve kb q n;
            Stdout ("Error querying knowledge base: '" ++ type_name r
                    ++ "' object has no attribute 'get'")],
           Return (VList []))).
Proof.
  split; [|split].
  - unfold QueryKbRetrieve.query_knowledge_base. cbn [emit bind lift].
    destruct (retrieve kb q n) as [r|e]; cbn [bind lift try_except app].
    + destruct (py_get r "retrievalResults" (VList [])) as [v|e];
        cbn [bind lift try_except app print emit ret exn_response].
      * do 2 eexists. split; [reflexivity|]. reflexivity.
      * destruct (exn_response e); cbn [bind print emit ret app];
          (do 2 eexists; split; [reflexivity|]; reflexivity).
    + cbn [bind lift try_except app print emit ret].
      destruct (exn_response e); cbn [bind print emit ret app];
        (do 2 eexists; split; [reflexivity|]; reflexivity).
  - intros d H. unfold QueryKbRetrieve.query_knowledge_base. cbn [emit bind lift].
    rewrite H. reflexivity.
  - intros r H Hd. unfold QueryKbRetrieve.query_knowledge_base. cbn [emit bind lift].
    rewrite H. destruct r; try reflexivity. now destruct (Hd d).
Qed.
End RetrievalMore.

(** ** The result list of query_kb_retrieve.py *)

Section ResultList.
Context {B : Builtins}.

Lemma result_lines_shape (i : nat) (r : value) (g : list string) :
  QueryKbRetrieve.result_lines i r = Return g ->
  List.length g = 3 /\ forall j, returns (QueryKbRetrieve.result_lines j r) = true.
Proof.
  unfold QueryKbRetrieve.result_lines.
  destruct (py_get r "content" (VDict [])) as [c|]; cbn [obind]; [|discriminate].
  destruct (py_get c "text" (VStr "")) as [content|]; cbn [obind]; [|discriminate].
  destruct (py_get r "location" (VDict [])) as [loc|]; cbn [obind]; [|discriminate].
  destruct (py_get loc "s3Location" (VDict [])) as [s3|]; cbn [obind]; [|discriminate].
  destruct (py_get s3 "uri" (VStr "Unknown source")) as [src|]; cbn [obind]; [|discriminate].
  destruct (py_get r "score" (VInt 0)) as [score|]; cbn [obind]; [|discriminate].
  destruct (QueryKbRetrieve.preview content) as [pv|]; cbn [obind]; [|discriminate].
  destruct (format_2f score) as [rel|]; cbn [obind]; [|discriminate].
  intro H. inversion H. split; reflexivity.
Qed.

(** X12: for a non-empty list of results that can be read,
    [format_results] prints the heading and then exactly three lines per
    result, in the order of the results and numbered from 1; a result with
    neither location nor score shows "Unknown source" and the relevance of
    0. *)
Theorem format_results_prints_three_lines_per_result (rs : list value) :
  rs <> [] ->
  Forall (fun r => returns (QueryKbRetrieve.result_lines 1 r) = true) rs ->
  (exists groups,
     QueryKbRetrieve.format_results (VList rs)
     = Return (join LF ("=== Search Results ===" :: List.concat groups))
     /\ List.length groups = List.length rs
     /\ List.length (List.concat groups) = 3 * List.length rs
     /\ forall i r, nth_error rs i = Some r ->
          exists g, nth_error groups i = Some g
                    /\ QueryKbRetrieve.result_lines (S i) r = Return g)
  /\ forall i s,
       QueryKbRetrieve.result_lines i (passage s)
       = (relevance <- format_2f (VInt 0) ;;
          Return [LF ++ "Result " ++ dec i ++ " (Relevance: " ++ relevance ++ "):";
                  "Source: Unknown source";
                  "Content: " ++ (if (200 <? String.length s)%nat
                                  then str_take 200 s ++ "..." else s)])%outcome.
Proof.
  intros Hne Hall. split; [|intros i s; apply result_lines_content].
  assert (R : forall i x, In x rs -> returns (QueryKbRetrieve.result_lines i x) = true).
  { intros i x Hx. rewrite Forall_forall in Hall. specialize (Hall x Hx).
    destruct (QueryKbRetrieve.result_lines 1 x) as [g|] eqn:E; [|discriminate].
    now apply (result_lines_shape 1 x g E). }
  destruct (enumerate_map_returns QueryKbRetrieve.result_lines rs R 1) as [groups Hg].
  exists groups. split; [|split; [|split]].
  - unfold QueryKbRetrieve.format_results. destruct rs as [|r rs]; [contradiction|].
    simpl py_truthy. simpl negb. cbv iota. simpl py_iter. cbv beta iota delta [obind].
    now rewrite Hg.
  - eapply enumerate_map_length, Hg.
  - rewrite <- (enumerate_map_length _ _ _ _ Hg).
    assert (T : Forall (fun g => List.length g = 3) groups).
    { apply Forall_forall. intros g Hin. apply In_nth_error in Hin as [i Hi].
      assert (Hlt : i < List.length rs).
      { rewrite <- (enumerate_map_length _ _ _ _ Hg). apply nth_error_Some. congruence. }
      destruct (nth_error rs i) as [r|] eqn:Er;
        [|apply nth_error_None in Er; lia].
      destruct (enumerate_map_nth _ _ _ _ Hg _ _ Er) as [a [Ha Hf]].
      rewrite Hi in Ha. inversion Ha; subst a.
      now apply (result_lines_shape _ _ _ Hf). }
    clear Hg. induction T as [|g gs Hl _ IH]; [reflexivity|].
    simpl. rewrite length_app, Hl, IH. lia.
  - intros i r Hi. destruct (enumerate_map_nth _ _ _ _ Hg _ _ Hi) as [g [Hn Hf]].
    exists g. split; [exact Hn|]. exact Hf.
Qed.
End ResultList.

(** ** The further properties at concrete inputs *)

Lemma missing_content_raises_before_the_call_witness :
  Forall (fun r => returns (passage_text (B := plain_builtins) r) = true) [passage "abc"]
  /\ lookup "content" [("metadata", VDict [("source", VStr "s3://m.pdf")])] = None
  /\ generate_response (B := plain_builtins) (W := world_model_down) "anthropic.claude-v2" "q"
       (VList [passage "abc"; VDict [("metadata", VDict [("source", VStr "s3://m.pdf")])]])
     = ([], Raise (KeyError (B := plain_builtins) "content"))
  /\ reference_entry (B := plain_builtins) 2
       (VDict [("metadata", VDict [("source", VStr "s3://m.pdf")])])
     = Return (LF ++ "--- Reference 2 ---" ++ LF ++ "Source: s3://m.pdf" ++ LF
               ++ "Page: N/A" ++ LF ++ "Content: No content...").
Proof.
  assert (H : Forall (fun r => returns (passage_text (B := plain_builtins) r) = true)
                [passage "abc"]) by (repeat constructor).
  destruct (missing_content_raises_before_the_call (B := plain_builtins)
              (W := world_model_down) "anthropic.claude-v2" "q" [passage "abc"] []
              [("metadata", VDict [("source", VStr "s3://m.pdf")])] H eq_refl) as [G R].
  split; [exact H|]. split; [reflexivity|]. split; [exact G|].
  exact (R 2).
Defined.


Lemma main_single_prints_answer_then_references_witness :
  retrieve_and_generate (Services := world_answering "{}") "HBPKZNSUMS" "payload?" 3
  = found [passage "abc"]
  /\ [passage "abc"] <> []
  /\ format_references (B := plain_builtins) (VList [passage "abc"])
     = Return (LF ++ "--- Reference 1 ---" ++ LF ++ "Source: Unknown" ++ LF
               ++ "Page: N/A" ++ LF ++ "Content: abc...")
  /\ terminal_of
       (fst (main_single
               (B := example_builtins (fun _ => Return (VDict [("completion", VStr " Hi ")])))
               (W := world_answering "{}") example_args "payload?"))
     = Some DONE.
Proof.
  split; [reflexivity|]. split; [discriminate|]. split; [reflexivity|].
  refine (proj2 (main_single_prints_answer_then_references
                   (B := example_builtins
                           (fun _ => Return (VDict [("completion", VStr " Hi ")])))
                   (W := world_answering "{}") example_args "payload?"
                   (VDict [("retrievalResults", VList [passage "abc"])])
                   (VDict [("completion", VStr " Hi ")]) [passage "abc"]
                   ("Source 1:" ++ LF ++ "abc") "{}" " Hi "
                   (LF ++ "--- Reference 1 ---" ++ LF ++ "Source: Unknown" ++ LF
                    ++ "Page: N/A" ++ LF ++ "Content: abc...")
                   eq_refl eq_refl _ eq_refl eq_refl eq_refl eq_refl eq_refl)).
  discriminate.
Defined.

Lemma main_single_fails_on_non_text_answer_witness :
  extract_text (B := plain_builtins) "anthropic.claude-v2" (VDict [("completion", VNone)])
  = Return VNone
  /\ (forall s, VNone <> VStr s)
  /\ terminal_of
       (fst (main_single
               (B := example_builtins (fun _ => Return (VDict [("completion", VNone)])))
               (W := world_answering "{}") example_args "payload?"))
     = Some (FAILED "'NoneType' object has no attribute 'strip'").
Proof.
  assert (N : forall s, VNone <> VStr s) by discriminate.
  split; [reflexivity|]. split; [exact N|].
  rewrite (main_single_fails_on_non_text_answer
             (B := example_builtins (fun _ => Return (VDict [("completion", VNone)])))
             (W := world_answering "{}") example_args "payload?"
             (VDict [("retrievalResults", VList [passage "abc"])])
             (VDict [("completion", VNone)]) VNone [passage "abc"]
             ("Source 1:" ++ LF ++ "abc") "{}"
             eq_refl eq_refl ltac:(discriminate) eq_refl eq_refl eq_refl eq_refl N).
  reflexivity.
Defined.

Lemma interactive_loop_stops_at_exit_witness :
  is_exit (strip "  QUIT ") = true
  /\ interactive_loop (B := plain_builtins) (W := world_empty) example_args
       ["payload?"; "  QUIT "; "more"; "still more"]
     = interactive_loop (B := plain_builtins) (W := world_empty) example_args
         ["payload?"; "  QUIT "].
Proof.
  split; [reflexivity|].
  exact (proj1 (interactive_loop_stops_at_exit (B := plain_builtins) (W := world_empty)
                  example_args ["payload?"] ["more"; "still more"] "  QUIT " eq_refl)).
Defined.

Lemma interactive_loop_skips_blank_lines_witness :
  all_space "   " = true
  /\ interactive_loop (B := plain_builtins) (W := world_empty) example_args ["   "; "exit"]
     = [Prompt (LF ++ "Enter your question: "); Prompt (LF ++ "Enter your question: ")].
Proof.
  split; [reflexivity|].
  rewrite (interactive_loop_skips_blank_lines (B := plain_builtins) (W := world_empty)
             example_args "   " ["exit"] eq_refl).
  reflexivity.
Defined.

Lemma format_results_prints_three_lines_per_result_witness :
  [passage "abc"; passage "de"] <> []
  /\ Forall (fun r => returns (QueryKbRetrieve.result_lines (B := plain_builtins) 1 r) = true)
       [passage "abc"; passage "de"]
  /\ exists groups,
       QueryKbRetrieve.format_results (B := plain_builtins)
         (VList [passage "abc"; passage "de"])
       = Return (join LF ("=== Search Results ===" :: List.concat groups))
       /\ List.length (List.concat groups) = 6.
Proof.
  assert (Hne : [passage "abc"; passage "de"] <> []) by discriminate.
  assert (Hall : Forall (fun r => returns (QueryKbRetrieve.result_lines
                                             (B := plain_builtins) 1 r) = true)
                   [passage "abc"; passage "de"]) by (repeat constructor).
  destruct (format_results_prints_three_lines_per_result (B := plain_builtins) _ Hne Hall)
    as [(groups & Hf & _ & Hl & _) _].
  split; [exact Hne|]. split; [exact Hall|]. exists groups. split; [exact Hf | exact Hl].
Defined.

(** ** The driver of query_kb_retrieve.py *)

Section RetrieveDriver.
Context {B : Builtins} {W : Services}.

Lemma retrieve_trace (kb q : string) (n : Z) :
  exists lines v,
    QueryKbRetrieve.query_knowledge_base kb q n
    = (Retrieve kb q n :: map Stdout lines, Return v).
Proof.
  unfold QueryKbRetrieve.query_knowledge_base. cbn [emit bind lift].
  destruct (retrieve kb q n) as [r|e]; cbn [bind lift try_except app].
  - destruct (py_get r "retrievalResults" (VList [])) as [v|e];
      cbn [bind lift try_except app print emit ret].
    + now exists [], v.
    + destruct (exn_response e) as [x|]; cbn [bind print emit ret app].
      * now exists ["Error querying knowledge base: " ++ exn_msg e;
                    "Error details: " ++ py_str x], (VList []).
      * now exists ["Error querying knowledge base: " ++ exn_msg e], (VList []).
  - cbn [bind lift try_except app print emit ret].
    destruct (exn_response e) as [x|]; cbn [bind print emit ret app].
    + now exists ["Error querying knowledge base: " ++ exn_msg e;
                  "Error details: " ++ py_str x], (VList []).
    + now exists ["Error querying knowledge base: " ++ exn_msg e], (VList []).
Qed.

Lemma retrieves_only_stdout (kb : string) (n : Z) (lines : list string) :
  retrieves_only kb n (map Stdout lines).
Proof. unfold retrieves_only. induction lines; constructor; [exact I | assumption]. Qed.

Lemma interactive_iteration_retrieves (kb q : string) :
  retrieves_only kb 3 (fst (QueryKbRetrieveMain.interactive_iteration kb q)).
Proof.
  unfold QueryKbRetrieveMain.interactive_iteration.
  destruct (is_exit q); [repeat constructor|].
  destruct (String.eqb q ""); [constructor|].
  destruct (retrieve_trace kb q 3) as (lines & v & H).
  unfold entering. rewrite H. cbn [fst snd print emit bind lift app].
  pose proof (retrieves_only_stdout kb 3 lines) as L. unfold retrieves_only in *.
  destruct (QueryKbRetrieve.format_results v) as [text|e];
    cbn [fst snd print emit bind lift app try_except ret];
    rewrite <- ?app_assoc;
    repeat (apply Forall_cons; [first [exact I | now split]|]);
    (apply Forall_app; split; [exact L | repeat constructor]).
Qed.

(** X14: the interactive mode of query_kb_retrieve.py always asks the
    service for 3 results from the knowledge base it was started with,
    whatever [--max-results] says. *)
Theorem interactive_mode_ignores_max_results (kb : string) (max : Z) (lines : list string) :
  retrieves_only kb 3 (fst (QueryKbRetrieveMain.main None kb max lines)).
Proof.
  cbn [QueryKbRetrieveMain.main fst]. unfold QueryKbRetrieveMain.interactive_mode.
  unfold retrieves_only. repeat (apply Forall_cons; [exact I|]).
  induction lines as [|line rest IH]; [constructor|].
  cbn [QueryKbRetrieveMain.interactive_loop].
  pose proof (interactive_iteration_retrieves kb (strip line)) as P.
  destruct (QueryKbRetrieveMain.interactive_iteration kb (strip line)) as [t [[|]|e]];
    cbn [fst] in P; apply Forall_cons; try exact I;
    try (apply Forall_app; split); assumption.
Qed.

(** Results on which [format_results] fails are not the empty list the
    handler of [query_knowledge_base] returns: the retrieval that gave them
    printed nothing. *)
Lemma retrieve_run_of_unformattable (kb q : string) (n : Z) (results : value) (e : exn) :
  snd (QueryKbRetrieve.query_knowledge_base kb q n) = Return results ->
  QueryKbRetrieve.format_results results = Raise e ->
  QueryKbRetrieve.query_knowledge_base kb q n = ([Retrieve kb q n], Return results).
Proof.
  intros H Hf.
  assert (E : results <> VList []) by (intros ->; discriminate Hf).
  revert H. unfold QueryKbRetrieve.query_knowledge_base. cbn [emit bind lift].
  destruct (retrieve kb q n) as [r|x]; cbn [bind lift try_except app].
  - destruct (py_get r "retrievalResults" (VList [])) as [v|x];
      cbn [bind lift try_except app print emit ret fst snd].
    + now intros [= ->].
    + destruct (exn_response x); cbn [bind print emit ret app fst snd];
        intros [= <-]; now elim E.
  - destruct (exn_response x); cbn [bind print emit ret app fst snd];
      intros [= <-]; now elim E.
Qed.

(** X15: the single-query mode of query_kb_retrieve.py has no handler: when
    [format_results] fails on the results retrieved, the whole run of
    [main] is the call of the retrieve service and the exception, with
    nothing printed at all, where a pass of the interactive mode on the same
    results prints "Searching...", makes the same call, prints "An error
    occurred" with the message and goes on. *)
Theorem single_query_mode_propagates_format_errors (kb q : string) (max : Z)
    (results : value) (e : exn) :
  q <> "" ->
  is_exit q = false ->
  snd (QueryKbRetrieve.query_knowledge_base kb q max) = Return results ->
  snd (QueryKbRetrieve.query_knowledge_base kb q 3) = Return results ->
  QueryKbRetrieve.format_results results = Raise e ->
  QueryKbRetrieveMain.main (Some q) kb max []
  = ([Enter "query_knowledge_base"; Retrieve kb q max; Enter "format_results"], Raise e)
  /\ QueryKbRetrieveMain.interactive_iteration kb q
     = ([Stdout (LF ++ "Searching...");
         Enter "query_knowledge_base"; Retrieve kb q 3; Enter "format_results";
         Stdout (LF ++ "An error occurred: " ++ exn_msg e)],
        Return QueryKnowledgeBase.Continue).
Proof.
  intros Hq Hx Hm H3 Hf.
  assert (Q : String.eqb q "" = false) by now apply String.eqb_neq.
  split.
  - unfold QueryKbRetrieveMain.main, QueryKbRetrieveMain.main_single, entering. rewrite Q.
    rewrite (retrieve_run_of_unformattable kb q max results e Hm Hf).
    cbn [fst snd bind lift app]. now rewrite Hf.
  - unfold QueryKbRetrieveMain.interactive_iteration, entering. rewrite Hx, Q.
    rewrite (retrieve_run_of_unformattable kb q 3 results e H3 Hf).
    cbn [fst snd bind lift print emit app]. rewrite Hf.
    reflexivity.
Qed.
End RetrieveDriver.

(** ** query_rds_data.py *)

Lemma enumerate_map_const_returns {A} (f : value -> outcome A) (items : list value)
    (out : list A) :
  Forall2 (fun x a => f x = Return a) items out ->
  forall start, enumerate_map (fun _ x => f x) start items = Return out.
Proof.
  induction 1 as [|x a items out Hx _ IH]; intro start; simpl; [reflexivity|].
  now rewrite Hx, IH.
Qed.

Section RdsData.
Context {B : Builtins} {S : QueryRdsData.Service}.
Import QueryRdsData.

(** X16: on a field that is a dictionary the chain of tests never fails and
    takes the first of "stringValue", "longValue", "booleanValue" and
    "doubleValue" that is present; failing those, a field with an "isNull"
    key gives None whatever the value under the key, and any other field
    (a blob, an array) is rendered by [str]. *)
Theorem field_value_takes_the_first_known_key (f : list (string * value)) :
  field_value (VDict f)
  = Return (match lookup "stringValue" f with
            | Some v => v
            | None =>
              match lookup "longValue" f with
              | Some v => v
              | None =>
                match lookup "booleanValue" f with
                | Some v => v
                | None =>
                  match lookup "doubleValue" f with
                  | Some v => v
                  | None =>
                    match lookup "isNull" f with
                    | Some _ => VNone
                    | None => VStr (py_str (VDict f))
                    end
                  end
                end
              end
            end)
  /\ (forall flag, field_value (VDict [("isNull", VBool flag)]) = Return VNone)
  /\ (forall s flag,
        field_value (VDict [("isNull", VBool flag); ("stringValue", VStr s)])
        = Return (VStr s)).
Proof.
  split; [|split; intros; reflexivity].
  unfold field_value. cbn [py_in obind py_item].
  destruct (lookup "stringValue" f); [reflexivity|].
  destruct (lookup "longValue" f); [reflexivity|].
  destruct (lookup "booleanValue" f); [reflexivity|].
  destruct (lookup "doubleValue" f); [reflexivity|].
  destruct (lookup "isNull" f); reflexivity.
Qed.

Lemma row_of_at (fields : list value) (names : list string) :
  forall s,
    s + List.length names <= List.length fields ->
    (forall i f, i < List.length fields -> nth_error fields i = Some f ->
                 returns (field_value f) = true) ->
    exists values,
      enumerate_map (cell (VList fields)) s (map VStr names)
      = Return (combine (map VStr names) values)
      /\ List.length values = List.length names
      /\ forall i f, i < List.length names -> nth_error fields (s + i) = Some f ->
           exists v, field_value f = Return v /\ nth_error values i = Some v.
Proof.
  induction names as [|n names IH]; intros s Hlen Hdec.
  - exists []. repeat split. intros i f Hi. inversion Hi.
  - simpl in Hlen.
    destruct (nth_error fields s) as [f|] eqn:Ef;
      [|apply nth_error_None in Ef; lia].
    assert (Hf : returns (field_value f) = true)
      by (apply (Hdec s f); [lia | exact Ef]).
    destruct (field_value f) as [v|] eqn:Ev; [|discriminate].
    destruct (IH (Datatypes.S s) ltac:(lia) Hdec) as (values & He & Hl & Hn).
    exists (v :: values). split; [|split].
    + simpl. unfold cell at 1. cbn [py_index]. rewrite Ef. cbn [obind]. rewrite Ev.
      cbn [obind hashable]. now rewrite He.
    + simpl. now rewrite Hl.
    + intros i f' Hi Hf'. destruct i as [|i].
      * rewrite Nat.add_0_r in Hf'. rewrite Ef in Hf'. inversion Hf'; subst f'.
        exists v. now split.
      * rewrite Nat.add_succ_r in Hf'. simpl in Hi.
        destruct (Hn i f' ltac:(lia) Hf') as (v' & H1 & H2). exists v'. now split.
Qed.

Lemma row_of_short (fields : list value) (names : list string) :
  forall s,
    s <= List.length fields ->
    List.length fields < s + List.length names ->
    (forall i f, i < List.length fields -> nth_error fields i = Some f ->
                 returns (field_value f) = true) ->
    enumerate_map (cell (VList fields)) s (map VStr names)
    = Raise (IndexError "list index out of range").
Proof.
  induction names as [|n names IH]; intros s Hs0 Hlen Hdec; simpl in Hlen.
  - lia.
  - simpl. unfold cell at 1. cbn [py_index].
    destruct (nth_error fields s) as [f|] eqn:Ef; [|reflexivity]. cbn [obind].
    assert (Hs : s < List.length fields) by (apply nth_error_Some; congruence).
    assert (Hf : returns (field_value f) = true) by (apply (Hdec s f); assumption).
    destruct (field_value f) as [v|] eqn:Ev; [|discriminate].
    cbn [obind hashable]. now rewrite (IH (Datatypes.S s) ltac:(lia) ltac:(lia) Hdec).
Qed.

End RdsData.

Section RdsTable.
Context {B : Builtins} {S : QueryRdsData.Service}.
Import QueryRdsData.

Lemma column_names (cols : list value) (names : list string) :
  Forall2 (fun col name => py_item col "name" = Return (VStr name)) cols names ->
  enumerate_map (fun _ col => py_item col "name") 0 cols = Return (map VStr names).
Proof.
  intro H. apply enumerate_map_const_returns.
  induction H; simpl; constructor; assumption.
Qed.

Lemma readable_row (names : list string) (record : value) :
  readable_record (List.length names) record ->
  returns (row_of (map VStr names) record) = true.
Proof.
  destruct record; simpl; try contradiction. intros [Hl Hd].
  destruct (row_of_at l names 0 Hl Hd) as (values & E & _).
  unfold row_of. now rewrite E.
Qed.

(** X17: from a response with records, [query_rds_data] returns the names
    of the columns in the order of the metadata and one row per record in
    the order of the records; a row assigns to each column, in order, the
    decoded field at the column's position, and what a record holds beyond
    the last column is ignored. *)
Theorem query_rds_data_builds_the_table (sql db secret resource region : string)
    (d : list (string * value)) (cols recs : list value) (names : list string) :
  execute_statement secret resource sql db region = Return (VDict d) ->
  lookup "records" d = Some (VList recs) ->
  lookup "columnMetadata" d = Some (VList cols) ->
  Forall2 (fun col name => py_item col "name" = Return (VStr name)) cols names ->
  Forall (readable_record (List.length names)) recs ->
  exists rows,
    query_rds_data sql db secret resource region
    = ([Called (ExecuteStatement secret resource sql db region)],
       Return (Table (map VStr names) rows))
    /\ List.length rows = List.length recs
    /\ forall j fields, nth_error recs j = Some (VList fields) ->
         exists values,
           nth_error rows j = Some (combine (map VStr names) values)
           /\ List.length values = List.length names
           /\ forall i f, i < List.length names -> nth_error fields i = Some f ->
                exists v, field_value f = Return v /\ nth_error values i = Some v.
Proof.
  intros He Hr Hc Hn Hrec.
  assert (R : forall i x, In x recs ->
                returns ((fun (_ : nat) record => row_of (map VStr names) record) i x) = true).
  { intros i x Hx. rewrite Forall_forall in Hrec. now apply readable_row, Hrec. }
  destruct (enumerate_map_returns _ recs R 0) as [rows Hrows].
  exists rows. split; [|split].
  - unfold query_rds_data, act_call. rewrite He. cbn [act_bind act_lift act_try app].
    unfold read_response. cbn [py_in py_item py_iter obind]. rewrite Hr, Hc.
    cbn [obind py_iter]. rewrite (column_names cols names Hn). cbn [obind].
    rewrite Hrows. reflexivity.
  - eapply enumerate_map_length, Hrows.
  - intros j fields Hj.
    destruct (enumerate_map_nth _ _ _ _ Hrows _ _ Hj) as (row & Hrow & Hf).
    rewrite Forall_forall in Hrec. pose proof (Hrec _ (nth_error_In _ _ Hj)) as [Hl Hd].
    destruct (row_of_at fields names 0 Hl Hd) as (values & E & Hlen & Hv).
    unfold row_of in Hf. rewrite E in Hf. inversion Hf; subst row.
    exists values. split; [exact Hrow|]. split; [exact Hlen|]. exact Hv.
Qed.

(** X18: a first record with fewer fields than there are columns makes
    [query_rds_data] fail: the IndexError is printed as
    "Error executing query: list index out of range" and raised again, and
    no table is returned. *)
Theorem query_rds_data_fails_on_a_short_record (sql db secret resource region : string)
    (d : list (string * value)) (cols fields more : list value) (names : list string) :
  execute_statement secret resource sql db region = Return (VDict d) ->
  lookup "records" d = Some (VList (VList fields :: more)) ->
  lookup "columnMetadata" d = Some (VList cols) ->
  Forall2 (fun col name => py_item col "name" = Return (VStr name)) cols names ->
  List.length fields < List.length names ->
  (forall i f, i < List.length fields -> nth_error fields i = Some f ->
               returns (field_value f) = true) ->
  query_rds_data sql db secret resource region
  = ([Called (ExecuteStatement secret resource sql db region);
      Printed "Error executing query: list index out of range"],
     Raise (IndexError "list index out of range")).
Proof.
  intros He Hr Hc Hn Hlen Hd.
  unfold query_rds_data, act_call. rewrite He. cbn [act_bind act_lift act_try app].
  unfold read_response. cbn [py_in py_item py_iter obind]. rewrite Hr, Hc.
  cbn [obind py_iter]. rewrite (column_names cols names Hn). cbn [obind enumerate_map].
  unfold row_of at 1.
  rewrite (row_of_short fields names 0 ltac:(lia) ltac:(lia) Hd). reflexivity.
Qed.

(** X19: a response without a "records" key is returned as it is, with
    nothing printed; an exception of the service is printed, with its
    details when it carries a response, and raised again. *)
Theorem query_rds_data_passes_through (sql db secret resource region : string) :
  (forall d,
     execute_statement secret resource sql db region = Return (VDict d) ->
     lookup "records" d = None ->
     query_rds_data sql db secret resource region
     = ([Called (ExecuteStatement secret resource sql db region)], Return (Raw (VDict d))))
  /\ (forall e,
        execute_statement secret resource sql db region = Raise e ->
        query_rds_data sql db secret resource region
        = (Called (ExecuteStatement secret resource sql db region)
             :: Printed ("Error executing query: " ++ exn_msg e)
             :: match exn_response e with
                | Some r => [Printed ("Error details: " ++ py_str r)]
                | None => []
                end,
           Raise e)).
Proof.
  split.
  - intros d He Hr. unfold query_rds_data, act_call. rewrite He.
    cbn [act_bind act_lift act_try app]. unfold read_response. cbn [py_in obind].
    now rewrite Hr.
  - intros e He. unfold query_rds_data, act_call, report. rewrite He.
    cbn [act_try act_bind act_print act_lift app].
    destruct (exn_response e); reflexivity.
Qed.
End RdsTable.

Lemma row_get_absent (c : string) (names : list string) (values : list value) :
  ~ In c names -> QueryRdsData.row_get c (combine (map VStr names) values) = None.
Proof.
  revert values; induction names as [|n names IH]; intros values H; [reflexivity|].
  destruct values as [|v values]; [reflexivity|]. simpl.
  rewrite IH by (intro X; apply H; now right).
  destruct (String.eqb n c) eqn:E; [|reflexivity].
  apply String.eqb_eq in E. subst. exfalso. apply H. now left.
Qed.

Lemma row_get_last (names : list string) :
  forall (values : list value) i n v,
    nth_error names i = Some n -> nth_error values i = Some v ->
    (forall k, i < k -> nth_error names k <> Some n) ->
    QueryRdsData.row_get n (combine (map VStr names) values) = Some v.
Proof.
  induction names as [|m names IH]; intros values i n v Hn Hv Hlast.
  - destruct i; discriminate.
  - destruct values as [|w values]; [destruct i; discriminate|].
    destruct i as [|i]; simpl in Hn, Hv.
    + inversion Hn; inversion Hv; subst. simpl.
      rewrite row_get_absent; [now rewrite String.eqb_refl|].
      intro Hin. apply In_nth_error in Hin as [k Hk].
      apply (Hlast (Datatypes.S k)); [lia | exact Hk].
    + simpl. rewrite (IH values i n v Hn Hv); [reflexivity|].
      intros k Hk. apply (Hlast (Datatypes.S k)); lia.
Qed.

Section RdsRows.
Context {B : Builtins} {S : QueryRdsData.Service}.
Import QueryRdsData.

(** X20: in the table [query_rds_data] returns for a response with records,
    the dictionary of record [j] read at a column name gives the decoded
    field of that record at the position of the last column so named: at
    the column's own position when the names are distinct, and when a name
    is used again the field of the earlier column is lost.  A name that is
    no column is no key. *)
Theorem row_maps_each_column_to_its_field (sql db secret resource region : string)
    (d : list (string * value)) (cols recs : list value) (names : list string) :
  execute_statement secret resource sql db region = Return (VDict d) ->
  lookup "records" d = Some (VList recs) ->
  lookup "columnMetadata" d = Some (VList cols) ->
  Forall2 (fun col name => py_item col "name" = Return (VStr name)) cols names ->
  Forall (readable_record (List.length names)) recs ->
  exists rows,
    snd (query_rds_data sql db secret resource region)
    = Return (Table (map VStr names) rows)
    /\ forall j fields, nth_error recs j = Some (VList fields) ->
         exists row,
           nth_error rows j = Some row
           /\ (forall i n f,
                 nth_error names i = Some n -> nth_error fields i = Some f ->
                 (forall k, i < k -> nth_error names k <> Some n) ->
                 exists v, field_value f = Return v /\ row_get n row = Some v)
           /\ (forall n, ~ In n names -> row_get n row = None).
Proof.
  intros He Hr Hc Hn Hrec.
  assert (R : forall i x, In x recs ->
                returns ((fun (_ : nat) record => row_of (map VStr names) record) i x) = true).
  { intros i x Hx. rewrite Forall_forall in Hrec. now apply readable_row, Hrec. }
  destruct (enumerate_map_returns _ recs R 0) as [rows Hrows].
  exists rows. split.
  - unfold query_rds_data, act_call. rewrite He. cbn [act_bind act_lift act_try app].
    unfold read_response. cbn [py_in py_item py_iter obind]. rewrite Hr, Hc.
    cbn [obind py_iter]. rewrite (column_names cols names Hn). cbn [obind].
    rewrite Hrows. reflexivity.
  - intros j fields Hj.
    destruct (enumerate_map_nth _ _ _ _ Hrows _ _ Hj) as (row & Hrow & Hf).
    rewrite Forall_forall in Hrec. pose proof (Hrec _ (nth_error_In _ _ Hj)) as [Hl Hd].
    destruct (row_of_at fields names 0 Hl Hd) as (values & E & Hlen & Hv).
    unfold row_of in Hf. rewrite E in Hf. inversion Hf; subst row.
    exists (combine (map VStr names) values). split; [exact Hrow|]. split.
    + intros i n f Hi Hfi Hlast.
      assert (Hlt : i < List.length names) by (apply nth_error_Some; congruence).
      destruct (Hv i f Hlt Hfi) as (v & Hdec & Hval).
      exists v. split; [exact Hdec|].
      now apply (row_get_last names values i n v).
    + intros n Hn'. now apply row_get_absent.
Qed.
End RdsRows.

(** ** update_kb_model.py *)

Lemma lookup_dict_set_same (k : string) (x : value) (d : list (string * value)) :
  lookup k (dict_set k x d) = Some x.
Proof.
  induction d as [|[k' v] d IH]; simpl.
  - now rewrite String.eqb_refl.
  - destruct (String.eqb k k') eqn:E; simpl; [now rewrite String.eqb_refl|].
    now rewrite E.
Qed.

Lemma lookup_dict_set_other (k k' : string) (x : value) (d : list (string * value)) :
  k' <> k -> lookup k' (dict_set k x d) = lookup k' d.
Proof.
  intro H. induction d as [|[k0 v] d IH]; simpl.
  - apply String.eqb_neq in H. now rewrite H.
  - destruct (String.eqb k k0) eqn:E; simpl.
    + apply String.eqb_eq in E. subst k0. apply String.eqb_neq in H. now rewrite H.
    + destruct (String.eqb k' k0); [reflexivity | exact IH].
Qed.

Section UpdateModel.
Context {B : Builtins} {S : UpdateKbModel.Service}.
Import UpdateKbModel.

Lemma get_knowledge_base_config_run (kb : string) (resp cfg : list (string * value)) :
  get_knowledge_base kb = Return (VDict resp) ->
  lookup "knowledgeBase" resp = Some (VDict cfg) ->
  get_knowledge_base_config kb = ([Called (GetKnowledgeBase kb)], Return (VDict cfg)).
Proof.
  intros Hg Hl. unfold get_knowledge_base_config, act_call. rewrite Hg.
  cbn [act_bind act_lift act_try app py_get]. now rewrite Hl.
Qed.

(** X21: the request [update_knowledge_base_model] sends keeps the name,
    the role and the storage configuration it has read, and changes the
    knowledge-base configuration in one place only: under
    "generationConfiguration", made if it was missing, "modelArn" is the
    given model and "promptTemplate" the fixed template, every other key
    there and every other key of the configuration (the embedding model's
    among them) being as before. *)
Theorem update_changes_only_the_generation_model (kb arn : string)
    (resp cfg kbc g : list (string * value)) (name role storage : value) :
  get_knowledge_base kb = Return (VDict resp) ->
  lookup "knowledgeBase" resp = Some (VDict cfg) ->
  lookup "name" cfg = Some name ->
  lookup "roleArn" cfg = Some role ->
  lookup "storageConfiguration" cfg = Some storage ->
  lookup "knowledgeBaseConfiguration" cfg = Some (VDict kbc) ->
  (lookup "generationConfiguration" kbc = Some (VDict g)
   \/ (lookup "generationConfiguration" kbc = None /\ g = [])) ->
  exists kbc' g',
    let params := VDict [("knowledgeBaseId", VStr kb); ("name", name); ("roleArn", role);
                         ("knowledgeBaseConfiguration", VDict kbc');
                         ("storageConfiguration", storage)] in
    update_knowledge_base_model kb arn
    = act_try ([Called (GetKnowledgeBase kb); Called (UpdateKnowledgeBase params)],
               update_knowledge_base params)
        (fun e => (report "Error updating knowledge base: " e ;; act_lift (Raise e))%act)
    /\ lookup "generationConfiguration" kbc' = Some (VDict g')
    /\ lookup "modelArn" g' = Some (VStr arn)
    /\ lookup "promptTemplate" g' = Some (VStr PROMPT_TEMPLATE)
    /\ (forall k, k <> "modelArn" -> k <> "promptTemplate" -> lookup k g' = lookup k g)
    /\ (forall k, k <> "generationConfiguration" -> lookup k kbc' = lookup k kbc).
Proof.
  intros Hg Hl Hn Hr Hs Hk Hgen.
  set (g' := dict_set "promptTemplate" (VStr PROMPT_TEMPLATE)
               (dict_set "modelArn" (VStr arn) g)).
  set (kbc1 := match lookup "generationConfiguration" kbc with
               | Some _ => kbc
               | None => dict_set "generationConfiguration" (VDict []) kbc
               end).
  set (kbc' := dict_set "generationConfiguration" (VDict g') kbc1).
  assert (W : with_generation_model (VDict cfg) arn
              = Return (VDict (dict_set "knowledgeBaseConfiguration" (VDict kbc') cfg))).
  { unfold with_generation_model. cbn [py_in py_item obind]. rewrite Hk.
    cbn [py_in py_item obind].
    destruct Hgen as [Hsome | [Hnone ->]].
    - subst kbc' kbc1. rewrite Hsome. cbn [obind py_item]. rewrite Hsome.
      reflexivity.
    - subst kbc' kbc1. rewrite Hnone. cbn [obind py_setitem py_item].
      rewrite lookup_dict_set_same. reflexivity. }
  assert (P : update_params kb (VDict (dict_set "knowledgeBaseConfiguration" (VDict kbc') cfg))
              = Return (VDict [("knowledgeBaseId", VStr kb); ("name", name); ("roleArn", role);
                               ("knowledgeBaseConfiguration", VDict kbc');
                               ("storageConfiguration", storage)])).
  { unfold update_params. cbn [py_item].
    rewrite lookup_dict_set_other, Hn by discriminate. cbn [obind py_item].
    rewrite lookup_dict_set_other, Hr by discriminate. cbn [obind py_item].
    rewrite lookup_dict_set_same. cbn [obind py_item].
    rewrite lookup_dict_set_other, Hs by discriminate. reflexivity. }
  exists kbc', g'. cbv zeta. split; [|split; [|split; [|split; [|split]]]].
  - unfold update_knowledge_base_model.
    rewrite (get_knowledge_base_config_run kb resp cfg Hg Hl).
    cbn [act_bind act_lift app]. rewrite W. cbn [act_bind act_lift app]. rewrite P.
    cbn [act_bind act_lift app]. unfold act_call.
    destruct (update_knowledge_base _); reflexivity.
  - subst kbc'. apply lookup_dict_set_same.
  - subst g'. rewrite lookup_dict_set_other by discriminate. apply lookup_dict_set_same.
  - subst g'. apply lookup_dict_set_same.
  - intros k H1 H2. subst g'. now rewrite !lookup_dict_set_other.
  - intros k H. subst kbc' kbc1. rewrite lookup_dict_set_other by exact H.
    destruct (lookup "generationConfiguration" kbc); [reflexivity|].
    now rewrite lookup_dict_set_other.
Qed.

(** X22: a configuration without "knowledgeBaseConfiguration" is never
    sent: [update_knowledge_base_model] raises the KeyError of the first of
    "name", "roleArn" and "knowledgeBaseConfiguration", in that order, that
    the configuration lacks, printed once as "Error updating knowledge
    base", and the update service is not called. *)
Theorem update_is_not_sent_without_configuration (kb arn : string)
    (resp cfg : list (string * value)) :
  get_knowledge_base kb = Return (VDict resp) ->
  lookup "knowledgeBase" resp = Some (VDict cfg) ->
  lookup "knowledgeBaseConfiguration" cfg = None ->
  let key := match lookup "name" cfg with
             | None => "name"
             | Some _ =>
                 match lookup "roleArn" cfg with
                 | None => "roleArn"
                 | Some _ => "knowledgeBaseConfiguration"
                 end
             end in
  update_knowledge_base_model kb arn
  = ([Called (GetKnowledgeBase kb);
      Printed ("Error updating knowledge base: " ++ repr_str key)],
     Raise (KeyError key))
  /\ update_calls (fst (update_knowledge_base_model kb arn)) = [].
Proof.
  intros Hg Hl Hk key.
  assert (W : with_generation_model (VDict cfg) arn = Return (VDict cfg)).
  { unfold with_generation_model. cbn [py_in obind]. now rewrite Hk. }
  assert (E : update_params kb (VDict cfg) = Raise (KeyError key)).
  { unfold update_params. subst key. cbn [py_item].
    destruct (lookup "name" cfg); cbn [obind]; [|reflexivity].
    destruct (lookup "roleArn" cfg); cbn [obind]; [|reflexivity].
    now rewrite Hk. }
  assert (R : update_knowledge_base_model kb arn
              = ([Called (GetKnowledgeBase kb);
                  Printed ("Error updating knowledge base: " ++ repr_str key)],
                 Raise (KeyError key))).
  { unfold update_knowledge_base_model.
    rewrite (get_knowledge_base_config_run kb resp cfg Hg Hl).
    cbn [act_bind act_lift app]. rewrite W. cbn [act_bind act_lift app]. rewrite E.
    reflexivity. }
  split; [exact R|]. now rewrite R.
Qed.

(** X23: when the knowledge base cannot be read, the exception is printed
    twice, by [get_knowledge_base_config] and again by
    [update_knowledge_base_model], and raised; the update service is not
    called. *)
Theorem get_failure_is_reported_twice (kb arn : string) (e : exn) :
  get_knowledge_base kb = Raise e ->
  let details := match exn_response e with
                 | Some r => [Printed ("Error details: " ++ py_str r)]
                 | None => []
                 end in
  update_knowledge_base_model kb arn
  = ((Called (GetKnowledgeBase kb)
        :: Printed ("Error getting knowledge base: " ++ exn_msg e) :: details
        ++ Printed ("Error updating knowledge base: " ++ exn_msg e) :: details)%list,
     Raise e)
  /\ update_calls (fst (update_knowledge_base_model kb arn)) = [].
Proof.
  intros Hg details.
  assert (R : update_knowledge_base_model kb arn
              = ((Called (GetKnowledgeBase kb)
                    :: Printed ("Error getting knowledge base: " ++ exn_msg e) :: details
                    ++ Printed ("Error updating knowledge base: " ++ exn_msg e)
                    :: details)%list,
                 Raise e)).
  { unfold update_knowledge_base_model, get_knowledge_base_config, act_call, report.
    rewrite Hg. subst details. cbn [act_try act_bind act_lift act_print act_ret app].
    destruct (exn_response e) eqn:E;
      cbn [act_try act_bind act_lift act_print act_ret app]; rewrite ?E;
      cbn [act_try act_bind act_lift act_print act_ret app]; reflexivity. }
  split; [exact R|]. rewrite R. cbn [fst]. subst details.
  destruct (exn_response e); reflexivity.
Qed.
End UpdateModel.

(** ** check_pdf_content.py *)

Section PdfCheck.
Context {S : CheckPdfContent.Service}.
Import CheckPdfContent.

(** X24: [download_and_check_pdf] returns True whenever nothing raises,
    whether or not text was found: for a PDF without pages it prints no
    verdict, and for a first page of fewer than 50 characters once stripped
    it prints the warning and still returns True.  At most the first 500
    characters of the text are printed. *)
Theorem download_and_check_pdf_returns_true_without_text (bucket key : string)
    (reader : pdf_reader) (n : nat) :
  s3_client = Return tt ->
  open_pdf bucket key = Return reader ->
  page_count reader = Return n ->
  let head := [Printed ("Downloading " ++ key ++ " from " ++ bucket ++ "...");
               Called (GetObject bucket key);
               Printed (LF ++ "=== PDF Information ===");
               Printed ("Number of pages: " ++ dec n)] in
  (n = 0 -> download_and_check_pdf bucket key = (head, Return true))
  /\ (forall text,
        0 < n -> first_page_text reader = Return text ->
        download_and_check_pdf bucket key
        = ((head ++ [Printed (LF ++ "=== First 500 characters of text ===");
                     Printed (str_take 500 text);
                     Printed (if (String.length (strip text) <? 50)%nat
                              then SCANNED_WARNING else EXTRACTION_OK)])%list,
           Return true)
        /\ String.length (str_take 500 text) <= 500).
Proof.
  intros Hc Ho Hp head. subst head. split.
  - intros ->. unfold download_and_check_pdf, act_call. rewrite Hc, Ho.
    cbn [act_bind act_lift act_print act_try act_ret app]. rewrite Hp. reflexivity.
  - intros text Hn Ht. split.
    + unfold download_and_check_pdf, act_call. rewrite Hc, Ho.
      cbn [act_bind act_lift act_print act_try act_ret app]. rewrite Hp.
      cbn [act_bind act_lift act_print act_try act_ret app].
      destruct n as [|n]; [lia|]. change (0 <? Datatypes.S n)%nat with true. cbv iota.
      rewrite Ht.
      cbn [act_bind act_lift act_print act_try act_ret app].
      destruct (String.length (strip text) <? 50)%nat; reflexivity.
    + destruct (Nat.le_ge_cases 500 (String.length text)) as [H|H].
      * now rewrite str_take_length.
      * now rewrite str_take_short.
Qed.

End PdfCheck.

Lemma single_query_mode_propagates_format_errors_witness :
  "payload?" <> ""
  /\ is_exit "payload?" = false
  /\ QueryKbRetrieve.format_results (B := plain_builtins) (VList [VStr "x"])
     = Raise (AttributeError "'str' object has no attribute 'get'")
  /\ QueryKbRetrieveMain.main (B := plain_builtins)
       (W := example_services (found [VStr "x"]) (found []) (Return ""))
       (Some "payload?") "HBPKZNSUMS" 5 []
     = ([Enter "query_knowledge_base"; Retrieve "HBPKZNSUMS" "payload?" 5;
         Enter "format_results"],
        Raise (AttributeError "'str' object has no attribute 'get'"))
  /\ QueryKbRetrieveMain.interactive_iteration (B := plain_builtins)
       (W := example_services (found [VStr "x"]) (found []) (Return ""))
       "HBPKZNSUMS" "payload?"
     = ([Stdout (LF ++ "Searching...");
         Enter "query_knowledge_base"; Retrieve "HBPKZNSUMS" "payload?" 3;
         Enter "format_results";
         Stdout (LF ++ "An error occurred: 'str' object has no attribute 'get'")],
        Return QueryKnowledgeBase.Continue).
Proof.
  assert (N : "payload?" <> "") by discriminate.
  split; [exact N|]. split; [reflexivity|]. split; [reflexivity|].
  exact (single_query_mode_propagates_format_errors (B := plain_builtins)
           (W := example_services (found [VStr "x"]) (found []) (Return ""))
           "HBPKZNSUMS" "payload?" 5 (VList [VStr "x"])
           (AttributeError "'str' object has no attribute 'get'")
           N eq_refl eq_refl eq_refl eq_refl).
Defined.

Lemma two_columns_named :
  Forall2 (fun col name => py_item (B := plain_builtins) col "name" = Return (VStr name))
    two_columns ["id"; "note"].
Proof. repeat constructor. Qed.

Lemma one_field_decodes :
  forall i g, i < 1 -> nth_error [VDict [("longValue", VInt 1)]] i = Some g ->
              returns (QueryRdsData.field_value (B := plain_builtins) g) = true.
Proof.
  intros i g Hi Hg. destruct i as [|i]; [|lia]. inversion Hg. reflexivity.
Qed.

Lemma query_rds_data_builds_the_table_witness :
  Forall (readable_record (B := plain_builtins) 2)
    [VList [VDict [("longValue", VInt 1)]; VDict [("stringValue", VStr "a")]];
     VList [VDict [("longValue", VInt 2)]; VDict [("isNull", VBool true)];
            VDict [("stringValue", VStr "extra")]]]
  /\ exists rows,
       snd (QueryRdsData.query_rds_data (B := plain_builtins)
              (S := example_rds (Return (VDict two_records)))
              "SELECT id, note FROM t" "myapp" "secret" "cluster" "us-east-1")
       = Return (QueryRdsData.Table [VStr "id"; VStr "note"] rows)
       /\ List.length rows = 2.
Proof.
  assert (R : Forall (readable_record (B := plain_builtins) 2)
                [VList [VDict [("longValue", VInt 1)]; VDict [("stringValue", VStr "a")]];
                 VList [VDict [("longValue", VInt 2)]; VDict [("isNull", VBool true)];
                        VDict [("stringValue", VStr "extra")]]]).
  { apply Forall_cons; [|apply Forall_cons; [|apply Forall_nil]];
      (split; [simpl; lia|]); intros i f Hi Hf; simpl in Hi;
      do 3 (destruct i as [|i]; [inversion Hf; reflexivity|]); lia. }
  split; [exact R|].
  destruct (query_rds_data_builds_the_table (B := plain_builtins)
              (S := example_rds (Return (VDict two_records)))
              "SELECT id, note FROM t" "myapp" "secret" "cluster" "us-east-1"
              two_records two_columns _ ["id"; "note"]
              eq_refl eq_refl eq_refl two_columns_named R) as (rows & E & L & _).
  exists rows. rewrite E. split; [reflexivity | exact L].
Defined.

Lemma repeated_columns_named :
  Forall2 (fun col name => py_item (B := plain_builtins) col "name" = Return (VStr name))
    repeated_columns ["id"; "note"; "id"].
Proof. repeat constructor. Qed.

Lemma row_maps_each_column_to_its_field_witness :
  Forall (readable_record (B := plain_builtins) 3)
    [VList [VDict [("longValue", VInt 1)]; VDict [("stringValue", VStr "a")];
            VDict [("longValue", VInt 2)]]]
  /\ exists rows row,
       snd (QueryRdsData.query_rds_data (B := plain_builtins)
              (S := example_rds (Return (VDict joined_record)))
              "SELECT a.id, a.note, b.id FROM a JOIN b ON a.id = b.ref" "myapp" "secret"
              "cluster" "us-east-1")
       = Return (QueryRdsData.Table [VStr "id"; VStr "note"; VStr "id"] rows)
       /\ nth_error rows 0 = Some row
       /\ QueryRdsData.row_get "id" row = Some (VInt 2)
       /\ QueryRdsData.row_get "note" row = Some (VStr "a")
       /\ QueryRdsData.row_get "ref" row = None.
Proof.
  assert (R : Forall (readable_record (B := plain_builtins) 3)
                [VList [VDict [("longValue", VInt 1)]; VDict [("stringValue", VStr "a")];
                        VDict [("longValue", VInt 2)]]]).
  { apply Forall_cons; [|apply Forall_nil].
    split; [simpl; lia|]. intros i f Hi Hf. simpl in Hi.
    do 3 (destruct i as [|i]; [inversion Hf; reflexivity|]). lia. }
  split; [exact R|].
  destruct (row_maps_each_column_to_its_field (B := plain_builtins)
              (S := example_rds (Return (VDict joined_record)))
              "SELECT a.id, a.note, b.id FROM a JOIN b ON a.id = b.ref" "myapp" "secret"
              "cluster" "us-east-1"
              joined_record repeated_columns _ ["id"; "note"; "id"]
              eq_refl eq_refl eq_refl repeated_columns_named R) as (rows & E & H).
  destruct (H 0 _ eq_refl) as (row & Hrow & Hread & Habs).
  exists rows, row. split; [exact E|]. split; [exact Hrow|].
  destruct (Hread 2 "id" _ eq_refl eq_refl) as (v2 & D2 & G2).
  { intros k Hk Hn. do 3 (destruct k as [|k]; [lia|]). destruct k; discriminate. }
  destruct (Hread 1 "note" _ eq_refl eq_refl) as (v1 & D1 & G1).
  { intros k Hk Hn. do 2 (destruct k as [|k]; [lia|]).
    destruct k as [|k]; [discriminate|]. destruct k; discriminate. }
  vm_compute in D2. vm_compute in D1. inversion D2; inversion D1; subst v1 v2.
  split; [exact G2|]. split; [exact G1|].
  apply Habs. intros [X|[X|[X|[]]]]; discriminate.
Defined.

Lemma query_rds_data_fails_on_a_short_record_witness :
  List.length [VDict [("longValue", VInt 1)]] < List.length ["id"; "note"]
  /\ snd (QueryRdsData.query_rds_data (B := plain_builtins)
            (S := example_rds (Return (VDict short_record)))
            "SELECT id, note FROM t" "myapp" "secret" "cluster" "us-east-1")
     = Raise (IndexError "list index out of range").
Proof.
  assert (L : List.length [VDict [("longValue", VInt 1)]] < List.length ["id"; "note"])
    by (simpl; lia).
  split; [exact L|].
  rewrite (query_rds_data_fails_on_a_short_record (B := plain_builtins)
             (S := example_rds (Return (VDict short_record)))
             "SELECT id, note FROM t" "myapp" "secret" "cluster" "us-east-1"
             short_record two_columns [VDict [("longValue", VInt 1)]] [] ["id"; "note"]
             eq_refl eq_refl eq_refl two_columns_named L one_field_decodes).
  reflexivity.
Defined.

Lemma update_changes_only_the_generation_model_witness :
  lookup "knowledgeBaseConfiguration" example_knowledge_base
  = Some (VDict [("type", VStr "VECTOR");
                 ("vectorKnowledgeBaseConfiguration",
                  VDict [("embeddingModelArn", VStr "arn:embedding")])])
  /\ exists kbc' g',
       lookup "generationConfiguration" kbc' = Some (VDict g')
       /\ lookup "modelArn" g' = Some (VStr UpdateKbModel.NEW_MODEL_ARN)
       /\ lookup "vectorKnowledgeBaseConfiguration" kbc'
          = Some (VDict [("embeddingModelArn", VStr "arn:embedding")]).
Proof.
  split; [reflexivity|].
  destruct (update_changes_only_the_generation_model (B := plain_builtins)
              (S := example_admin
                      (Return (VDict [("knowledgeBase", VDict example_knowledge_base)]))
                      (Return (VDict [("status", VStr "UPDATING")])))
              UpdateKbModel.KNOWLEDGE_BASE_ID UpdateKbModel.NEW_MODEL_ARN
              [("knowledgeBase", VDict example_knowledge_base)] example_knowledge_base
              [("type", VStr "VECTOR");
               ("vectorKnowledgeBaseConfiguration",
                VDict [("embeddingModelArn", VStr "arn:embedding")])]
              [] (VStr "kb") (VStr "arn:aws:iam::1:role/kb") (VDict [("type", VStr "RDS")])
              eq_refl eq_refl eq_refl eq_refl eq_refl eq_refl
              (or_intror (conj eq_refl eq_refl)))
    as (kbc' & g' & _ & H1 & H2 & _ & _ & H3).
  exists kbc', g'. split; [exact H1|]. split; [exact H2|].
  rewrite H3 by discriminate. reflexivity.
Defined.

Lemma update_is_not_sent_without_configuration_witness :
  lookup "knowledgeBaseConfiguration" [("name", VStr "kb")] = None
  /\ UpdateKbModel.update_knowledge_base_model (B := plain_builtins)
       (S := example_admin (Return (VDict [("knowledgeBase", VDict [("name", VStr "kb")])]))
               (Return VNone))
       "HBPKZNSUMS" UpdateKbModel.NEW_MODEL_ARN
     = ([Called (UpdateKbModel.GetKnowledgeBase "HBPKZNSUMS");
         Printed "Error updating knowledge base: 'roleArn'"],
        Raise (KeyError (B := plain_builtins) "roleArn")).
Proof.
  split; [reflexivity|].
  exact (proj1 (update_is_not_sent_without_configuration (B := plain_builtins)
                  (S := example_admin
                          (Return (VDict [("knowledgeBase", VDict [("name", VStr "kb")])]))
                          (Return VNone))
                  "HBPKZNSUMS" UpdateKbModel.NEW_MODEL_ARN
                  [("knowledgeBase", VDict [("name", VStr "kb")])] [("name", VStr "kb")]
                  eq_refl eq_refl eq_refl)).
Defined.

Lemma get_failure_is_reported_twice_witness :
  UpdateKbModel.get_knowledge_base (Service := example_admin (Raise service_down) (Return VNone))
    "HBPKZNSUMS" = Raise service_down
  /\ UpdateKbModel.update_knowledge_base_model (B := plain_builtins)
       (S := example_admin (Raise service_down) (Return VNone))
       "HBPKZNSUMS" UpdateKbModel.NEW_MODEL_ARN
     = ([Called (UpdateKbModel.GetKnowledgeBase "HBPKZNSUMS");
         Printed "Error getting knowledge base: service unavailable";
         Printed "Error updating knowledge base: service unavailable"],
        Raise service_down).
Proof.
  split; [reflexivity|].
  exact (proj1 (get_failure_is_reported_twice (B := plain_builtins)
                  (S := example_admin (Raise service_down) (Return VNone))
                  "HBPKZNSUMS" UpdateKbModel.NEW_MODEL_ARN service_down eq_refl)).
Defined.

Lemma download_and_check_pdf_returns_true_without_text_witness :
  CheckPdfContent.page_count
    {| CheckPdfContent.page_count := Return 1;
       CheckPdfContent.first_page_text := Return "  scan  " |} = Return 1
  /\ CheckPdfContent.download_and_check_pdf
       (S := example_pdf (Return {| CheckPdfContent.page_count := Return 1;
                                    CheckPdfContent.first_page_text := Return "  scan  " |}))
       "manuals" "dt1000.pdf"
     = ([Printed "Downloading dt1000.pdf from manuals...";
         Called (CheckPdfContent.GetObject "manuals" "dt1000.pdf");
         Printed (LF ++ "=== PDF Information ===");
         Printed "Number of pages: 1";
         Printed (LF ++ "=== First 500 characters of text ===");
         Printed "  scan  ";
         Printed CheckPdfContent.SCANNED_WARNING],
        Return true).
Proof.
  split; [reflexivity|].
  exact (proj1 (proj2 (download_and_check_pdf_returns_true_without_text
                         (S := example_pdf
                                 (Return {| CheckPdfContent.page_count := Return 1;
                                            CheckPdfContent.first_page_text :=
                                              Return "  scan  " |}))
                         "manuals" "dt1000.pdf" _ 1 eq_refl eq_refl eq_refl)
                      "  scan  " ltac:(lia) eq_refl)).
Defined.
